(** * Sensora: the wizard pages, the user-profile store and the pipeline

    A shallow embedding of the TypeScript sources of the Sensora front end
    (the neuro-brief page, the calibration page and the zustand user-profile
    store) and of the compliance stage of the formulation pipeline as the
    specification describes it, together with the statements proved about
    them.

    Conventions of the embedding.
    - A JavaScript [number] is a rational ([Q]); a decimal literal of the
      source is the rational it denotes, and [<], [>] are the exact
      comparisons.  Non-finite numbers (a division by zero) are outside the
      model; every statement about a quotient carries the non-zero divisor
      as a hypothesis.
    - A JavaScript string on which the code computes ([trim], [length]) is
      the list of its UTF-16 code units; property names, storage keys, routes
      and time stamps are plain strings.
    - React state is a record; a handler is a function from the state before
      to the state after.  [new Date().toISOString()] is a parameter [now]
      of the handler that reads the clock.
    - [localStorage] is a finite map from keys to the stored JSON texts,
      represented by the records they serialise. *)

From stdpp Require Import gmap strings list fin_maps.
From Stdlib Require Import QArith Qabs Qround Lqa.
From Stdlib Require Import DecimalString DecimalNat DecimalFacts.

Local Open Scope Q_scope.

(** ** JavaScript numbers and strings *)

(** [x > y] and [x < y] on numbers. *)
Definition gt (x y : Q) : bool := negb (Qle_bool x y).
Definition lt (x y : Q) : bool := negb (Qle_bool y x).

(** A string as its UTF-16 code units. *)
Definition JSString : Type := list N.

(** The code units of an ASCII literal. *)
Definition utf16 (s : string) : JSString :=
  List.map Ascii.N_of_ascii (String.list_ascii_of_string s).

(** ECMAScript [WhiteSpace] and [LineTerminator] code points, the ones
    [String.prototype.trim] strips. *)
Definition isWhiteSpace (c : N) : bool :=
  (  (c =? 9) || (c =? 10) || (c =? 11) || (c =? 12) || (c =? 13)
  || (c =? 32) || (c =? 160) || (c =? 5760)
  || ((8192 <=? c) && (c <=? 8202))
  || (c =? 8232) || (c =? 8233) || (c =? 8239) || (c =? 8287)
  || (c =? 12288) || (c =? 65279))%N.

Fixpoint trimStart (s : JSString) : JSString :=
  match s with
  | c :: s' => if isWhiteSpace c then trimStart s' else s
  | [] => []
  end.

Definition trimEnd (s : JSString) : JSString := rev (trimStart (rev s)).

(** [s.trim()] *)
Definition trim (s : JSString) : JSString := trimEnd (trimStart s).

(** ** What the pages persist *)

(** The object literal [calibrationData] of the calibration page. *)
Record CalibrationRecord := {
  cr_ph : Q;
  cr_skinType : option string;
  cr_temperature : Q;
  cr_stressLevel : Q;
  cr_heartRate : Q;
  cr_lifestyleScenario : string;
  cr_timestamp : string
}.

(** The object literal [neuroBriefData] of the neuro-brief page. *)
Record NeuroBriefRecord := {
  nr_prompt : JSString;
  nr_valence : Q;
  nr_arousal : Q;
  nr_timestamp : string
}.

(** [JSON.stringify] of either literal: the stored text is a snapshot of
    the record, so it is represented by the record value. *)
Inductive StoredItem :=
| CalibrationItem (d : CalibrationRecord)
| NeuroBriefItem (d : NeuroBriefRecord).

(** ** The neuro-brief page (app/neuro-brief/page.tsx) *)

Module NeuroBriefPage.

(** The part of [React.MouseEvent] and of [getBoundingClientRect()] that
    [handleClick] reads. *)
Record MouseEvent := { clientX : Q; clientY : Q }.
Record DOMRect := { left : Q; top : Q; width : Q; height : Q }.

(** The [useState] cells of [NeuroBriefPage]. *)
Record State := {
  prompt : JSString;
  valence : Q;
  arousal : Q;
  isSubmitting : bool;
  showSuggestions : bool
}.

(** The page together with the browser objects its handlers write. *)
Record World := {
  page : State;
  localStorage : gmap string StoredItem;
  route : list string
}.

Definition initialState : State :=
  {| prompt := []; valence := 0.3; arousal := 0.2;
     isSubmitting := false; showSuggestions := true |}.

(** [getMoodLabel] of [MoodQuadrant], with the props it closes over as
    arguments. *)
Definition getMoodLabel (valence arousal : Q) : string :=
  if gt valence 0.15 && gt arousal 0.15 then "Excited / Joyful"
  else if gt valence 0.15 && lt arousal (-0.15) then "Calm / Content"
  else if lt valence (-0.15) && gt arousal 0.15 then "Tense / Anxious"
  else if lt valence (-0.15) && lt arousal (-0.15) then "Melancholic / Sad"
  else "Neutral / Balanced".

(** [handleClick] of [MoodQuadrant]: the position of the click relative to
    the element, mapped linearly, handed to [onPositionChange]. *)
Definition handleClick {S : Type} (onPositionChange : Q -> Q -> S -> S)
    (rect : DOMRect) (e : MouseEvent) : S -> S :=
  let x := (clientX e - left rect) / width rect in
  let y := 1 - (clientY e - top rect) / height rect in
  let newValence := x * 2 - 1 in
  let newArousal := y * 2 - 1 in
  onPositionChange newValence newArousal.

Definition setValence (v : Q) (s : State) : State :=
  {| prompt := prompt s; valence := v; arousal := arousal s;
     isSubmitting := isSubmitting s; showSuggestions := showSuggestions s |}.

Definition setArousal (a : Q) (s : State) : State :=
  {| prompt := prompt s; valence := valence s; arousal := a;
     isSubmitting := isSubmitting s; showSuggestions := showSuggestions s |}.

Definition setIsSubmitting (b : bool) (s : State) : State :=
  {| prompt := prompt s; valence := valence s; arousal := arousal s;
     isSubmitting := b; showSuggestions := showSuggestions s |}.

(** The [onPositionChange] the page passes to [MoodQuadrant]. *)
Definition onPositionChange (v a : Q) (s : State) : State :=
  setArousal a (setValence v s).

(** A click on the quadrant of the page. *)
Definition clickQuadrant (rect : DOMRect) (e : MouseEvent) : State -> State :=
  handleClick onPositionChange rect e.

(** [canProceed = prompt.trim().length > 10] *)
Definition canProceed (s : State) : bool :=
  (10 <? length (trim (prompt s)))%nat.

Definition neuroBriefData (now : string) (s : State) : NeuroBriefRecord :=
  {| nr_prompt := prompt s; nr_valence := valence s;
     nr_arousal := arousal s; nr_timestamp := now |}.

(** [handleSubmit]; the awaited 1500 ms timer always fires, so the
    handler is run to its end. *)
Definition handleSubmit (now : string) (w : World) : World :=
  if negb (canProceed (page w)) then w
  else
    {| page := setIsSubmitting true (page w);
       localStorage :=
         <["sensora_neuro_brief" := NeuroBriefItem (neuroBriefData now (page w))]>
           (localStorage w);
       route := route w ++ ["/result"] |}.

(** The labelling as the specification words it: neutral only in the
    square around the origin, elsewhere the quadrant of the point. *)
Definition nearOrigin (v a : Q) : Prop :=
  Qabs v <= 0.15 /\ Qabs a <= 0.15.

(** The cross-shaped band around the two axes. *)
Definition nearAxis (v a : Q) : Prop :=
  Qabs v <= 0.15 \/ Qabs a <= 0.15.

(** The label printed for the open quadrant that contains a point; none for
    a point on an axis. *)
Definition quadrantLabel (v a : Q) : option string :=
  if gt v 0 && gt a 0 then Some "Excited / Joyful"
  else if gt v 0 && lt a 0 then Some "Calm / Content"
  else if lt v 0 && gt a 0 then Some "Tense / Anxious"
  else if lt v 0 && lt a 0 then Some "Melancholic / Sad"
  else None.

(** A click that falls on the element. *)
Definition inside (rect : DOMRect) (e : MouseEvent) : Prop :=
  0 < width rect /\ 0 < height rect /\
  left rect <= clientX e <= left rect + width rect /\
  top rect <= clientY e <= top rect + height rect.

(** [getMoodColor] of [MoodQuadrant] (the light theme of the page). *)
Definition getMoodColor (valence arousal : Q) : string :=
  if gt valence 0.15 && gt arousal 0.15 then "#FBBF24"
  else if gt valence 0.15 && lt arousal (-0.15) then "#10B981"
  else if lt valence (-0.15) && gt arousal 0.15 then "#F43F5E"
  else if lt valence (-0.15) && lt arousal (-0.15) then "#6366F1"
  else "#6B7280".

(** The position of the indicator, in percent of the element:
    [xPos] from its left edge, [yPos] from its top edge. *)
Definition xPos (valence : Q) : Q := ((valence + 1) / 2) * 100.
Definition yPos (arousal : Q) : Q := (1 - (arousal + 1) / 2) * 100.

Definition suggestedPrompts : list JSString :=
  [ utf16 "A misty morning in a Japanese garden after rain";
    utf16 "Warm amber light through honey-colored glass";
    utf16 "The last page of a leather-bound book in an old library";
    utf16 "Cool ocean breeze mingling with sun-warmed driftwood";
    utf16 "Velvet petals falling on ancient stone steps" ].

Definition setPrompt (p : JSString) (s : State) : State :=
  {| prompt := p; valence := valence s; arousal := arousal s;
     isSubmitting := isSubmitting s; showSuggestions := showSuggestions s |}.

Definition setShowSuggestions (b : bool) (s : State) : State :=
  {| prompt := prompt s; valence := valence s; arousal := arousal s;
     isSubmitting := isSubmitting s; showSuggestions := b |}.

(** [onChange] of the textarea. *)
Definition onPromptChange (value : JSString) (s : State) : State :=
  setShowSuggestions false (setPrompt value s).

(** [onClick] of a suggestion button. *)
Definition onSuggestionClick (suggestion : JSString) (s : State) : State :=
  setShowSuggestions false (setPrompt suggestion s).

(** [showSuggestions && prompt.length === 0]: the suggestions are
    rendered. *)
Definition suggestionsVisible (s : State) : bool :=
  showSuggestions s && (length (prompt s) =? 0)%nat.

(** The hint under the textarea:
    [prompt.length < 10 ? 'Minimum 10 characters' : 'Ready']. *)
Definition statusHint (s : State) : string :=
  if (length (prompt s) <? 10)%nat then "Minimum 10 characters" else "Ready".

(** [maxLength] of the textarea. *)
Definition maxLength : nat := 500.

(** [disabled={!canProceed || isSubmitting}] of the submit button. *)
Definition submitDisabled (s : State) : bool :=
  negb (canProceed s) || isSubmitting s.

(** The effect run on mount: without a stored calibration the page sends
    the user back to the calibration page. *)
Definition checkCalibration (w : World) : World :=
  match localStorage w !! "sensora_calibration" with
  | None =>
      {| page := page w; localStorage := localStorage w;
         route := route w ++ ["/calibration"] |}
  | Some _ => w
  end.

(** The page as mounted on a browser with the given storage and history. *)
Definition mount (storage : gmap string StoredItem) (history : list string) : World :=
  checkCalibration
    {| page := initialState; localStorage := storage; route := history |}.

(** A state setter run on the page of a world. *)
Definition onPage (f : State -> State) (w : World) : World :=
  {| page := f (page w); localStorage := localStorage w; route := route w |}.

(** What the user can do on the page. *)
Inductive Event :=
| TypePrompt (value : JSString)
| ClickSuggestion (suggestion : JSString)
| ClickQuadrant (rect : DOMRect) (e : MouseEvent)
| ClickSubmit (now : string).

(** One event and the handler the page runs for it.  The textarea holds at
    most [maxLength] code units, a suggestion can be clicked while the
    suggestions are rendered, and the submit button fires only while it is
    enabled. *)
Inductive step : World -> Event -> World -> Prop :=
| on_type w value :
    (length value <= maxLength)%nat ->
    step w (TypePrompt value) (onPage (onPromptChange value) w)
| on_suggestion w suggestion :
    In suggestion suggestedPrompts ->
    suggestionsVisible (page w) = true ->
    step w (ClickSuggestion suggestion) (onPage (onSuggestionClick suggestion) w)
| on_quadrant w rect e :
    step w (ClickQuadrant rect e) (onPage (clickQuadrant rect e) w)
| on_submit w now :
    submitDisabled (page w) = false ->
    step w (ClickSubmit now) (handleSubmit now w).

(** Any number of events, one after the other. *)
Inductive steps (w : World) : World -> Prop :=
| steps_nil : steps w w
| steps_cons w1 e w2 : steps w w1 -> step w1 e w2 -> steps w w2.

(** The neuro-brief stored in a world, if any. *)
Definition storedBrief (w : World) : option StoredItem :=
  localStorage w !! "sensora_neuro_brief".

(** What holds of the page and of the store in every world reached from a
    mount on a storage without a neuro-brief. *)
Definition briefOk (d : NeuroBriefRecord) : Prop :=
  (10 < length (trim (nr_prompt d)))%nat /\ (length (nr_prompt d) <= maxLength)%nat.

Definition worldOk (w : World) : Prop :=
  (length (prompt (page w)) <= maxLength)%nat /\
  match storedBrief w with
  | None => True
  | Some (NeuroBriefItem d) => briefOk d /\ isSubmitting (page w) = true
  | Some (CalibrationItem _) => False
  end.

End NeuroBriefPage.

(** ** The calibration page (app/calibration/page.tsx) *)

Module CalibrationPage.

(** An entry of [skinTypes], without its icon. *)
Record SkinTypeOption := { id : string; label : string; description : string }.

Definition skinTypes : list SkinTypeOption :=
  [ {| id := "dry"; label := "Dry";
       description := "Tight feeling, visible flakes, matte appearance" |};
    {| id := "normal"; label := "Normal";
       description := "Balanced, minimal concerns, even texture" |};
    {| id := "oily"; label := "Oily";
       description := "Shiny appearance, enlarged pores, prone to breakouts" |} ].

Inductive ActiveSection := skin | wellness.

(** The [useState] cells of [CalibrationPage]. *)
Record State := {
  ph : Q;
  skinType : option string;
  temperature : Q;
  stressLevel : Q;
  heartRate : Q;
  lifestyleScenario : string;
  isSubmitting : bool;
  activeSection : ActiveSection
}.

Record World := {
  page : State;
  localStorage : gmap string StoredItem;
  route : list string
}.

Definition initialState : State :=
  {| ph := 5.5; skinType := None; temperature := 36.5; stressLevel := 50;
     heartRate := 72; lifestyleScenario := EmptyString; isSubmitting := false;
     activeSection := skin |}.

(** The page as first mounted in a session: nothing stored yet. *)
Definition initialWorld : World :=
  {| page := initialState; localStorage := ∅; route := [] |}.

Definition setPh (v : Q) (s : State) : State :=
  {| ph := v; skinType := skinType s; temperature := temperature s;
     stressLevel := stressLevel s; heartRate := heartRate s;
     lifestyleScenario := lifestyleScenario s; isSubmitting := isSubmitting s;
     activeSection := activeSection s |}.

Definition setSkinType (t : option string) (s : State) : State :=
  {| ph := ph s; skinType := t; temperature := temperature s;
     stressLevel := stressLevel s; heartRate := heartRate s;
     lifestyleScenario := lifestyleScenario s; isSubmitting := isSubmitting s;
     activeSection := activeSection s |}.

Definition setTemperature (v : Q) (s : State) : State :=
  {| ph := ph s; skinType := skinType s; temperature := v;
     stressLevel := stressLevel s; heartRate := heartRate s;
     lifestyleScenario := lifestyleScenario s; isSubmitting := isSubmitting s;
     activeSection := activeSection s |}.

Definition setStressLevel (v : Q) (s : State) : State :=
  {| ph := ph s; skinType := skinType s; temperature := temperature s;
     stressLevel := v; heartRate := heartRate s;
     lifestyleScenario := lifestyleScenario s; isSubmitting := isSubmitting s;
     activeSection := activeSection s |}.

Definition setHeartRate (v : Q) (s : State) : State :=
  {| ph := ph s; skinType := skinType s; temperature := temperature s;
     stressLevel := stressLevel s; heartRate := v;
     lifestyleScenario := lifestyleScenario s; isSubmitting := isSubmitting s;
     activeSection := activeSection s |}.

Definition setLifestyleScenario (v : string) (s : State) : State :=
  {| ph := ph s; skinType := skinType s; temperature := temperature s;
     stressLevel := stressLevel s; heartRate := heartRate s;
     lifestyleScenario := v; isSubmitting := isSubmitting s;
     activeSection := activeSection s |}.

Definition setIsSubmitting (b : bool) (s : State) : State :=
  {| ph := ph s; skinType := skinType s; temperature := temperature s;
     stressLevel := stressLevel s; heartRate := heartRate s;
     lifestyleScenario := lifestyleScenario s; isSubmitting := b;
     activeSection := activeSection s |}.

Definition setActiveSection (a : ActiveSection) (s : State) : State :=
  {| ph := ph s; skinType := skinType s; temperature := temperature s;
     stressLevel := stressLevel s; heartRate := heartRate s;
     lifestyleScenario := lifestyleScenario s; isSubmitting := isSubmitting s;
     activeSection := a |}.

(** A state setter run on the page of a world. *)
Definition onPage (f : State -> State) (w : World) : World :=
  {| page := f (page w); localStorage := localStorage w; route := route w |}.

(** [canProceed = skinType !== null] *)
Definition canProceed (s : State) : bool :=
  match skinType s with Some _ => true | None => false end.

Definition calibrationData (now : string) (s : State) : CalibrationRecord :=
  {| cr_ph := ph s; cr_skinType := skinType s; cr_temperature := temperature s;
     cr_stressLevel := stressLevel s; cr_heartRate := heartRate s;
     cr_lifestyleScenario := lifestyleScenario s; cr_timestamp := now |}.

(** [handleSubmit]; the awaited 1000 ms timer always fires, so the handler
    is run to its end. *)
Definition handleSubmit (now : string) (w : World) : World :=
  if negb (canProceed (page w)) then w
  else
    {| page := setIsSubmitting true (page w);
       localStorage :=
         <["sensora_calibration" := CalibrationItem (calibrationData now (page w))]>
           (localStorage w);
       route := route w ++ ["/neuro-brief"] |}.

(** [disabled={!canProceed || isSubmitting}] of the submit button. *)
Definition submitDisabled (s : State) : bool :=
  negb (canProceed s) || isSubmitting s.

(** The attributes of an [<input type="range">]. *)
Record RangeInput := { input_min : Q; input_max : Q; input_step : Q }.

Definition phInput : RangeInput :=
  {| input_min := 3.0; input_max := 9.0; input_step := 0.1 |}.

Definition temperatureInput : RangeInput :=
  {| input_min := 35.0; input_max := 38.0; input_step := 0.1 |}.

(** The values a range control reports: the browser keeps the value of the
    control between its [min] and its [max]. *)
Definition reports (i : RangeInput) (v : Q) : Prop :=
  input_min i <= v <= input_max i.

(** What the user can do on the page. *)
Inductive Event :=
| ChangePh (v : Q)
| ChangeTemperature (v : Q)
| ClickSkinType (t : SkinTypeOption)
| ChangeStressLevel (v : Q)
| ChangeHeartRate (v : Q)
| ChangeScenario (v : string)
| ClickSection (a : ActiveSection)
| ClickSubmit (now : string).

(** One event and the handler the page runs for it.  A slider reports a
    value of its range, a skin-type button is one of [skinTypes], and the
    submit button fires only while it is enabled. *)
Inductive step : World -> Event -> World -> Prop :=
| step_ph w v :
    reports phInput v -> step w (ChangePh v) (onPage (setPh v) w)
| step_temperature w v :
    reports temperatureInput v ->
    step w (ChangeTemperature v) (onPage (setTemperature v) w)
| step_skinType w t :
    In t skinTypes ->
    step w (ClickSkinType t) (onPage (setSkinType (Some (id t))) w)
| step_stress w v :
    step w (ChangeStressLevel v) (onPage (setStressLevel v) w)
| step_heartRate w v :
    step w (ChangeHeartRate v) (onPage (setHeartRate v) w)
| step_scenario w v :
    step w (ChangeScenario v) (onPage (setLifestyleScenario v) w)
| step_section w a :
    step w (ClickSection a) (onPage (setActiveSection a) w)
| step_submit w now :
    submitDisabled (page w) = false ->
    step w (ClickSubmit now) (handleSubmit now w).

(** Any number of events, one after the other. *)
Inductive steps (w : World) : World -> Prop :=
| steps_refl : steps w w
| steps_snoc w1 e w2 : steps w w1 -> step w1 e w2 -> steps w w2.

Definition reachable (w : World) : Prop := steps initialWorld w.

(** The calibration stored in a world, if any. *)
Definition stored (w : World) : option StoredItem :=
  localStorage w !! "sensora_calibration".

(** The declared ranges of a biochemical profile. *)
Definition inRanges (d : CalibrationRecord) : Prop :=
  3.0 <= cr_ph d <= 9.0 /\
  35.0 <= cr_temperature d <= 38.0 /\
  (cr_skinType d = Some "dry" \/ cr_skinType d = Some "normal" \/
   cr_skinType d = Some "oily").

(** What holds of the page in every reachable world. *)
Definition pageOk (s : State) : Prop :=
  reports phInput (ph s) /\ reports temperatureInput (temperature s) /\
  (skinType s = None \/ exists t, In t skinTypes /\ skinType s = Some (id t)).

(** What holds of the store: a stored calibration is within the ranges, and
    the page that stored it is still submitting. *)
Definition storeOk (w : World) : Prop :=
  match stored w with
  | None => True
  | Some (CalibrationItem d) => inRanges d /\ isSubmitting (page w) = true
  | Some (NeuroBriefItem _) => False
  end.

(** A session of the page: the pH slider moved to 6.2, the dry skin type
    chosen, the form submitted. *)
Definition sampleSession : World :=
  handleSubmit "2025-01-01T00:00:00.000Z"
    (onPage (setSkinType (Some "dry")) (onPage (setPh 6.2) initialWorld)).

(** The page mounted on a browser with the given storage and history: the
    state is new, the storage is the browser's. *)
Definition mountOn (storage : gmap string StoredItem) (history : list string) : World :=
  {| page := initialState; localStorage := storage; route := history |}.

(** A session of the browser: events of the mounted page, and new mounts of
    the page (the Back link of the neuro-brief page leads to it) on a
    storage in which the other pages have left the calibration entry as it
    was. *)
Inductive session (w : World) : World -> Prop :=
| session_start : session w w
| session_event w1 e w2 : session w w1 -> step w1 e w2 -> session w w2
| session_remount w1 storage history :
    session w w1 ->
    storage !! "sensora_calibration" = stored w1 ->
    session w (mountOn storage history).

(** The worlds of a session that starts with the first mount. *)
Definition visited (w : World) : Prop := session initialWorld w.

(** A stored calibration is within the ranges. *)
Definition storeRanges (w : World) : Prop :=
  match stored w with
  | None => True
  | Some (CalibrationItem d) => inRanges d
  | Some (NeuroBriefItem _) => False
  end.

(** The sample session, followed by a second visit of the page: the oily
    skin type chosen, the form submitted again. *)
Definition sampleRevisit : World :=
  handleSubmit "2025-01-02T00:00:00.000Z"
    (onPage (setSkinType (Some "oily"))
       (mountOn (localStorage sampleSession)
          ["/neuro-brief"; "/calibration"])).

(** [getPhColor] and [getPhLabel] of [PhIndicator]. *)
Definition getPhColor (ph : Q) : string :=
  if lt ph 4.5 then "from-red-400 to-orange-400"
  else if lt ph 5.5 then "from-orange-300 to-yellow-300"
  else if lt ph 6.5 then "from-yellow-200 to-green-300"
  else if lt ph 7.5 then "from-green-300 to-teal-300"
  else "from-teal-300 to-blue-400".

Definition getPhLabel (ph : Q) : string :=
  if lt ph 4.5 then "Very Acidic"
  else if lt ph 5.5 then "Acidic"
  else if lt ph 6.5 then "Slightly Acidic"
  else if lt ph 7.5 then "Neutral"
  else "Alkaline".

(** The percentage in [left: calc(...% - 12px)] of the thumb of
    [PhIndicator]. *)
Definition thumbPercent (value : Q) : Q := ((value - 3) / 6) * 100.

End CalibrationPage.

(** ** The progress bar of the wizard ([ProgressSteps], the same on both
    pages) *)

Module ProgressSteps.

Definition steps : list string :=
  ["Bio-Calibration"; "Scent Brief"; "Your Formula"].

(** What is rendered for one step: the classes of its circle, its content
    (a check mark, or the number [index + 1]), and the connector after it,
    if any, with its colour. *)
Record StepView := {
  completed : bool;
  active : bool;
  checkMark : bool;
  number : nat;
  connector : option bool
}.

Definition index_number (index : nat) : Q := inject_Z (Z.of_nat index).

Definition renderStep (currentStep : Q) (index : nat) : StepView :=
  {| completed := lt (index_number index) currentStep;
     active := Qeq_bool (index_number index) currentStep;
     checkMark := lt (index_number index) currentStep;
     number := index + 1;
     connector :=
       if (index <? length steps - 1)%nat
       then Some (lt (index_number index) currentStep)
       else None |}.

(** [steps.map((step, index) => ...)] *)
Definition render (currentStep : Q) : list StepView :=
  imap (fun index _ => renderStep currentStep index) steps.

End ProgressSteps.

(** ** The stress profile (components/wellness/StressProfile.tsx) *)

Module StressProfile.

Record StressLevel := {
  id : string;
  label : string;
  value : Q;
  color : string;
  description : string
}.

Definition stressLevels : list StressLevel :=
  [ {| id := "low"; label := "Low"; value := 25; color := "#10B981";
       description := "Relaxed and calm" |};
    {| id := "medium"; label := "Medium"; value := 50; color := "#FBBF24";
       description := "Moderate daily stress" |};
    {| id := "high"; label := "High"; value := 75; color := "#F43F5E";
       description := "Elevated stress levels" |} ].

(** [a || b] on a possibly undefined string: [b] when [a] is undefined or
    empty. *)
Definition orElse (a : option string) (b : string) : string :=
  match a with
  | Some EmptyString | None => b
  | Some s => s
  end.

(** The initial [selectedLevel]:
    [stressLevels.find(l => l.value === stressLevel)?.id || 'medium']. *)
Definition initialSelectedLevel (stressLevel : Q) : string :=
  orElse
    (option_map id
       (List.find (fun l => Qeq_bool (value l) stressLevel) stressLevels))
    "medium".

Definition getStressColor (value : Q) : string :=
  if Qle_bool value 33 then "#10B981"
  else if Qle_bool value 66 then "#FBBF24"
  else "#F43F5E".

Definition getStressLabel (value : Q) : string :=
  if Qle_bool value 33 then "Low Stress"
  else if Qle_bool value 66 then "Moderate Stress"
  else "High Stress".

(** [handleLevelSelect]: the component keeps the id of the level and hands
    its value to [onChange]; the state is the pair of the component's
    [selectedLevel] and of the state of the parent. *)
Definition handleLevelSelect {S : Type} (onChange : Q -> S -> S)
    (level : StressLevel) (st : string * S) : string * S :=
  (id level, onChange (value level) (snd st)).

End StressProfile.

(** ** The heart-rate monitor (components/wellness/HeartRateMonitor.tsx) *)

Module HeartRateMonitor.

Definition Math_max (a b : Q) : Q := if lt a b then b else a.
Definition Math_min (a b : Q) : Q := if lt b a then b else a.

(** [Math.round]: the nearest integer, halves upwards. *)
Definition Math_round (x : Q) : Q := inject_Z (Qfloor (x + 0.5)).

(** One tick of the simulation: the [displayRate] it sets, from the
    [heartRate] prop and the number [Math.random()] returned. *)
Definition simulatedRate (heartRate random : Q) : Q :=
  let variation := (random - 0.5) * 4 in
  let newRate := Math_max 55 (Math_min 100 (heartRate + variation)) in
  Math_round newRate.

(** [beatInterval] of the ECG drawing, in pixels. *)
Definition beatInterval (displayRate : Q) : Q := 60 / displayRate * 60.

(** [getRateCategory]: label and colour. *)
Definition getRateCategory (rate : Q) : string * string :=
  if lt rate 60 then ("Relaxed", "#10B981")
  else if lt rate 80 then ("Normal", "#10B981")
  else if lt rate 90 then ("Slightly Elevated", "#FBBF24")
  else ("Elevated", "#F43F5E").

End HeartRateMonitor.

(** ** The user-profile store (the zustand store [useUserProfileStore]) *)

Module UserProfileStore.

Inductive SkinType := dry | normal | oily.

Module CalibrationData.
Record t := {
  ph : Q;
  skinType : option SkinType;
  temperature : Q;
  timestamp : option string
}.
End CalibrationData.

Module NeuroBriefData.
Record t := {
  prompt : JSString;
  valence : Q;
  arousal : Q;
  timestamp : option string
}.
End NeuroBriefData.

Record Ingredient := {
  name : string;
  concentration : Q;
  sustainable : bool
}.

Record Metrics := {
  longevity : Q;
  projection : Q;
  uniqueness : Q;
  sustainability : Q;
  ifraCompliance : Q
}.

Record FormulaData := {
  formula_id : option string;
  formula_name : string;
  formula_description : string;
  topNotes : list Ingredient;
  middleNotes : list Ingredient;
  baseNotes : list Ingredient;
  metrics : Metrics;
  physioCorrections : list string;
  createdAt : option string
}.

(** [Partial<CalibrationData>]: a field is either absent or named with a
    value. *)
Module PartialCalibrationData.
Record t := {
  ph : option Q;
  skinType : option (option SkinType);
  temperature : option Q;
  timestamp : option (option string)
}.
End PartialCalibrationData.

(** [Partial<NeuroBriefData>] *)
Module PartialNeuroBriefData.
Record t := {
  prompt : option JSString;
  valence : option Q;
  arousal : option Q;
  timestamp : option (option string)
}.
End PartialNeuroBriefData.

(** The data slices of [UserProfileState]; its actions are the functions
    below. *)
Record State := {
  calibration : CalibrationData.t;
  neuroBrief : NeuroBriefData.t;
  formula : option FormulaData;
  currentStep : Q;
  isGenerating : bool;
  error : option string
}.

(** The partial state an updater hands to zustand's [set]. *)
Record Patch := {
  patch_calibration : option CalibrationData.t;
  patch_neuroBrief : option NeuroBriefData.t;
  patch_formula : option (option FormulaData);
  patch_currentStep : option Q;
  patch_isGenerating : option bool;
  patch_error : option (option string)
}.

(** zustand's [set]: the slices the updater returns replace those of the
    state, the others stay (a shallow merge). *)
Definition set (updater : State -> Patch) (state : State) : State :=
  let next := updater state in
  {| calibration := default (calibration state) (patch_calibration next);
     neuroBrief := default (neuroBrief state) (patch_neuroBrief next);
     formula := default (formula state) (patch_formula next);
     currentStep := default (currentStep state) (patch_currentStep next);
     isGenerating := default (isGenerating state) (patch_isGenerating next);
     error := default (error state) (patch_error next) |}.

Definition initialCalibration : CalibrationData.t :=
  {| CalibrationData.ph := 5.5; CalibrationData.skinType := None;
     CalibrationData.temperature := 36.5; CalibrationData.timestamp := None |}.

Definition initialNeuroBrief : NeuroBriefData.t :=
  {| NeuroBriefData.prompt := []; NeuroBriefData.valence := 0;
     NeuroBriefData.arousal := 0; NeuroBriefData.timestamp := None |}.

(** The state [create] builds. *)
Definition initialState : State :=
  {| calibration := initialCalibration; neuroBrief := initialNeuroBrief;
     formula := None; currentStep := 0; isGenerating := false; error := None |}.

(** [{ ...state.calibration, ...data, timestamp: now }]: the fields of
    [data] override those of the slice, then the time stamp is written. *)
Definition spreadCalibration (now : string) (base : CalibrationData.t)
    (data : PartialCalibrationData.t) : CalibrationData.t :=
  let spread :=
    {| CalibrationData.ph :=
         default (CalibrationData.ph base) (PartialCalibrationData.ph data);
       CalibrationData.skinType :=
         default (CalibrationData.skinType base)
           (PartialCalibrationData.skinType data);
       CalibrationData.temperature :=
         default (CalibrationData.temperature base)
           (PartialCalibrationData.temperature data);
       CalibrationData.timestamp :=
         default (CalibrationData.timestamp base)
           (PartialCalibrationData.timestamp data) |} in
  {| CalibrationData.ph := CalibrationData.ph spread;
     CalibrationData.skinType := CalibrationData.skinType spread;
     CalibrationData.temperature := CalibrationData.temperature spread;
     CalibrationData.timestamp := Some now |}.

(** [{ ...state.neuroBrief, ...data, timestamp: now }] *)
Definition spreadNeuroBrief (now : string) (base : NeuroBriefData.t)
    (data : PartialNeuroBriefData.t) : NeuroBriefData.t :=
  let spread :=
    {| NeuroBriefData.prompt :=
         default (NeuroBriefData.prompt base) (PartialNeuroBriefData.prompt data);
       NeuroBriefData.valence :=
         default (NeuroBriefData.valence base)
           (PartialNeuroBriefData.valence data);
       NeuroBriefData.arousal :=
         default (NeuroBriefData.arousal base)
           (PartialNeuroBriefData.arousal data);
       NeuroBriefData.timestamp :=
         default (NeuroBriefData.timestamp base)
           (PartialNeuroBriefData.timestamp data) |} in
  {| NeuroBriefData.prompt := NeuroBriefData.prompt spread;
     NeuroBriefData.valence := NeuroBriefData.valence spread;
     NeuroBriefData.arousal := NeuroBriefData.arousal spread;
     NeuroBriefData.timestamp := Some now |}.

Definition setCalibration (now : string) (data : PartialCalibrationData.t) :
    State -> State :=
  set (fun state =>
    {| patch_calibration := Some (spreadCalibration now (calibration state) data);
       patch_neuroBrief := None; patch_formula := None;
       patch_currentStep := None; patch_isGenerating := None;
       patch_error := None |}).

Definition resetCalibration : State -> State :=
  set (fun _ =>
    {| patch_calibration := Some initialCalibration;
       patch_neuroBrief := None; patch_formula := None;
       patch_currentStep := None; patch_isGenerating := None;
       patch_error := None |}).

Definition setNeuroBrief (now : string) (data : PartialNeuroBriefData.t) :
    State -> State :=
  set (fun state =>
    {| patch_calibration := None;
       patch_neuroBrief := Some (spreadNeuroBrief now (neuroBrief state) data);
       patch_formula := None; patch_currentStep := None;
       patch_isGenerating := None; patch_error := None |}).

Definition resetNeuroBrief : State -> State :=
  set (fun _ =>
    {| patch_calibration := None; patch_neuroBrief := Some initialNeuroBrief;
       patch_formula := None; patch_currentStep := None;
       patch_isGenerating := None; patch_error := None |}).

Definition setFormula (f : FormulaData) : State -> State :=
  set (fun _ =>
    {| patch_calibration := None; patch_neuroBrief := None;
       patch_formula := Some (Some f); patch_currentStep := None;
       patch_isGenerating := None; patch_error := None |}).

Definition resetFormula : State -> State :=
  set (fun _ =>
    {| patch_calibration := None; patch_neuroBrief := None;
       patch_formula := Some None; patch_currentStep := None;
       patch_isGenerating := None; patch_error := None |}).

Definition setCurrentStep (step : Q) : State -> State :=
  set (fun _ =>
    {| patch_calibration := None; patch_neuroBrief := None;
       patch_formula := None; patch_currentStep := Some step;
       patch_isGenerating := None; patch_error := None |}).

Definition setIsGenerating (value : bool) : State -> State :=
  set (fun _ =>
    {| patch_calibration := None; patch_neuroBrief := None;
       patch_formula := None; patch_currentStep := None;
       patch_isGenerating := Some value; patch_error := None |}).

Definition setError (e : option string) : State -> State :=
  set (fun _ =>
    {| patch_calibration := None; patch_neuroBrief := None;
       patch_formula := None; patch_currentStep := None;
       patch_isGenerating := None; patch_error := Some e |}).

Definition resetAll : State -> State :=
  set (fun _ =>
    {| patch_calibration := Some initialCalibration;
       patch_neuroBrief := Some initialNeuroBrief;
       patch_formula := Some None;
       patch_currentStep := Some 0;
       patch_isGenerating := Some false;
       patch_error := Some None |}).

(** [calibration.skinType !== null && calibration.timestamp !== null] *)
Definition isCalibrationComplete (state : State) : bool :=
  bool_decide (CalibrationData.skinType (calibration state) <> None)
  && bool_decide (CalibrationData.timestamp (calibration state) <> None).

(** [neuroBrief.prompt.length >= 10 && neuroBrief.timestamp !== null] *)
Definition isNeuroBriefComplete (state : State) : bool :=
  (10 <=? length (NeuroBriefData.prompt (neuroBrief state)))%nat
  && bool_decide (NeuroBriefData.timestamp (neuroBrief state) <> None).

(** What [partialize] hands to the persist middleware. *)
Record Persisted := {
  persisted_calibration : CalibrationData.t;
  persisted_neuroBrief : NeuroBriefData.t;
  persisted_formula : option FormulaData;
  persisted_currentStep : Q
}.

Definition partialize (state : State) : Persisted :=
  {| persisted_calibration := calibration state;
     persisted_neuroBrief := neuroBrief state;
     persisted_formula := formula state;
     persisted_currentStep := currentStep state |}.

(** [{ ...first, ...second }] on two partial updates: a field named by
    [second] wins, the others are as in [first]. *)
Definition overlayCalibration (first second : PartialCalibrationData.t) :
    PartialCalibrationData.t :=
  {| PartialCalibrationData.ph :=
       match PartialCalibrationData.ph second with
       | Some v => Some v
       | None => PartialCalibrationData.ph first
       end;
     PartialCalibrationData.skinType :=
       match PartialCalibrationData.skinType second with
       | Some v => Some v
       | None => PartialCalibrationData.skinType first
       end;
     PartialCalibrationData.temperature :=
       match PartialCalibrationData.temperature second with
       | Some v => Some v
       | None => PartialCalibrationData.temperature first
       end;
     PartialCalibrationData.timestamp :=
       match PartialCalibrationData.timestamp second with
       | Some v => Some v
       | None => PartialCalibrationData.timestamp first
       end |}.

Definition overlayNeuroBrief (first second : PartialNeuroBriefData.t) :
    PartialNeuroBriefData.t :=
  {| PartialNeuroBriefData.prompt :=
       match PartialNeuroBriefData.prompt second with
       | Some v => Some v
       | None => PartialNeuroBriefData.prompt first
       end;
     PartialNeuroBriefData.valence :=
       match PartialNeuroBriefData.valence second with
       | Some v => Some v
       | None => PartialNeuroBriefData.valence first
       end;
     PartialNeuroBriefData.arousal :=
       match PartialNeuroBriefData.arousal second with
       | Some v => Some v
       | None => PartialNeuroBriefData.arousal first
       end;
     PartialNeuroBriefData.timestamp :=
       match PartialNeuroBriefData.timestamp second with
       | Some v => Some v
       | None => PartialNeuroBriefData.timestamp first
       end |}.

End UserProfileStore.

(** ** The API client (the Sensora API client module) *)

Module ApiClient.

Definition slash : N := 47.
Definition comma : N := 44.

Fixpoint dropSlashes (s : JSString) : JSString :=
  match s with
  | c :: s' => if (c =? slash)%N then dropSlashes s' else s
  | [] => []
  end.

(** [s.replace(/\/+$/, '')]: the trailing run of slashes removed. *)
Definition stripTrailingSlashes (s : JSString) : JSString :=
  rev (dropSlashes (rev s)).

(** [a || b] on a possibly undefined string. *)
Definition orElse (a : option JSString) (b : JSString) : JSString :=
  match a with
  | Some (c :: s) => c :: s
  | Some [] | None => b
  end.

(** [API_BASE_URL], from the value of [process.env.NEXT_PUBLIC_API_URL]. *)
Definition API_BASE_URL (env : option JSString) : JSString :=
  stripTrailingSlashes (orElse env (utf16 "http://localhost:8000")).

(** [HeadersInit]: what a caller may give as headers, a plain object, a
    [Headers] instance with its entries, or an array of arrays of
    strings. *)
Inductive HeadersInit :=
| HeadersRecord (record : gmap string string)
| HeadersInstance (entries : list (string * string))
| HeadersPairs (pairs : list (list string)).

(** The part of [RequestInit] the client uses; [headers] may be absent. *)
Record RequestInit := {
  method : option string;
  body : option JSString;
  headers : option HeadersInit
}.

(** A property of the headers object handed to [fetch]: a string, or, for
    an element of a spread array, the array of strings it is. *)
Inductive HeaderValue :=
| Text (value : string)
| Items (items : list string).

(** The init object handed to [fetch]. *)
Record SentInit := {
  sent_method : option string;
  sent_body : option JSString;
  sent_headers : gmap string HeaderValue
}.

(** What [fetch] is called with. *)
Record Request := {
  url : JSString;
  init : SentInit
}.

(** The property key of the element [i] of an array: its decimal
    numeral. *)
Definition indexKey (i : nat) : string :=
  NilZero.string_of_uint (Nat.to_uint i).

(** The own enumerable properties of an array, from index [i] on. *)
Fixpoint spreadArray (i : nat) (pairs : list (list string)) :
    gmap string HeaderValue :=
  match pairs with
  | [] => ∅
  | element :: rest => <[indexKey i := Items element]> (spreadArray (S i) rest)
  end.

(** [...options.headers] in an object literal: the own enumerable
    properties of the value.  Nothing for undefined; the entries of a plain
    object; nothing for a [Headers] instance, whose entries are not
    properties; the elements of an array under their indices. *)
Definition spreadHeaders (h : option HeadersInit) : gmap string HeaderValue :=
  match h with
  | None => ∅
  | Some (HeadersRecord record) => Text <$> record
  | Some (HeadersInstance _) => ∅
  | Some (HeadersPairs pairs) => spreadArray 0 pairs
  end.

(** What the client reads of a [Response]: [json] is the value
    [response.json()] resolves to, if the body parses. *)
Record Response (T : Type) := {
  ok : bool;
  status : nat;
  statusText : string;
  text : JSString;
  json : option T
}.

Arguments ok {T} _.
Arguments status {T} _.
Arguments statusText {T} _.
Arguments text {T} _.
Arguments json {T} _.

(** [class ApiError extends Error] *)
Record ApiError := {
  error_status : nat;
  error_statusText : string;
  message : JSString;
  name : string
}.

(** How the promise of [apiFetch] settles. *)
Inductive Settled (T : Type) :=
| Fulfilled (value : T)
| RejectedApiError (e : ApiError)
| RejectedOther.

Arguments Fulfilled {T} _.
Arguments RejectedApiError {T} _.
Arguments RejectedOther {T}.

Definition defaultHeaders : gmap string HeaderValue :=
  {[ "Content-Type" := Text "application/json" ]}.

(** The request [apiFetch] sends:
    [{ ...options, headers: { ...defaultHeaders, ...options.headers } }]. *)
Definition request (base endpoint : JSString) (options : RequestInit) : Request :=
  {| url := base ++ endpoint;
     init :=
       {| sent_method := method options; sent_body := body options;
          sent_headers := spreadHeaders (headers options) ∪ defaultHeaders |} |}.

(** [apiFetch]; [fetch] answers a request with a response, or fails. *)
Definition apiFetch {T : Type} (fetch : Request -> option (Response T))
    (base endpoint : JSString) (options : RequestInit) : Settled T :=
  match fetch (request base endpoint options) with
  | None => RejectedOther
  | Some response =>
      if negb (ok response) then
        let errorBody := text response in
        RejectedApiError
          {| error_status := status response;
             error_statusText := statusText response;
             message := orElse (Some errorBody) (utf16 "An error occurred");
             name := "ApiError" |}
      else
        match json response with
        | Some value => Fulfilled value
        | None => RejectedOther
        end
  end.

(** [s.split(sep)] for a separator of one code unit. *)
Fixpoint split (sep : N) (s : JSString) : list JSString :=
  match s with
  | [] => [[]]
  | c :: s' =>
      if (c =? sep)%N then [] :: split sep s'
      else
        match split sep s' with
        | piece :: pieces => (c :: piece) :: pieces
        | [] => [[c]]
        end
  end.

(** [fileToBase64], from what the reader ends with: the data URL in
    [reader.result], or an error.  The promise resolves to
    [result.split(',')[1]], undefined when there is no such piece. *)
Definition fileToBase64 (read : option JSString) : Settled (option JSString) :=
  match read with
  | Some result => Fulfilled (split comma result !! 1%nat)
  | None => RejectedOther
  end.

(** [Ingredient] of the client. *)
Inductive NoteType := top | middle | base.

Record Ingredient := {
  ingredient_name : string;
  concentration : Q;
  logp : Q;
  sustainable : bool;
  noteType : NoteType
}.

(** [calculateTotalConcentration] *)
Definition calculateTotalConcentration (ingredients : list Ingredient) : Q :=
  fold_left (fun sum ing => sum + concentration ing) ingredients 0.

End ApiClient.

(** ** The formulation pipeline

    The front end only calls the pipeline (POST /api/formulation/generate
    and /api/formulation/validate); its code is not part of the sources.
    The definitions of this module follow the specification, sections 3,
    4.5 and 4.6. *)

Module Pipeline.

(** Modelled from the spec: the note class of an ingredient (section 3);
    the catalog code is missing. *)
Inductive NoteClass := top | middle | base.

(** Modelled from the spec: IngredientRecord (section 3); the catalog code
    is missing. *)
Record IngredientRecord := {
  name : string;
  family : string;
  noteClass : NoteClass;
  baseConcentrationPct : Q;
  structuralDescriptor : string;
  sustainable : bool
}.

(** Modelled from the spec: a draft formula, the ordered collection of
    (IngredientRecord, concentrationPct) of section 3, each entry in the
    partition of its note class; the assembler code is missing. *)
Definition DraftFormula : Type := list (IngredientRecord * Q).

(** Modelled from the spec: a violation entry of ComplianceResult
    (section 3); the validator code is missing. *)
Record Violation := {
  ingredient : string;
  limitPct : Q;
  observedPct : Q;
  category : string
}.

(** Modelled from the spec: ComplianceResult (section 3); the validator
    code is missing. *)
Record ComplianceResult := {
  valid : bool;
  violations : list Violation
}.

(** Modelled from the spec: the aggregate metrics of a formula
    (section 3); the orchestrator code is missing. *)
Record Metrics := {
  longevity : Q;
  projection : Q;
  uniqueness : Q;
  sustainability : Q;
  complianceScore : Q
}.

(** Modelled from the spec: Formula (section 3); the orchestrator code is
    missing. *)
Record Formula := {
  entries : DraftFormula;
  metrics : Metrics
}.

(** Modelled from the spec: BiochemicalProfile (section 3); the pipeline
    code is missing. *)
Record BiochemicalProfile := {
  ph : Q;
  skinType : string;
  temperatureC : Q
}.

(** Modelled from the spec: EmotionalTarget (section 3); the pipeline code
    is missing. *)
Record EmotionalTarget := {
  valence : Q;
  arousal : Q;
  prompt : option JSString
}.

(** Modelled from the spec: CorrectionDirective (section 3); the retriever
    code is missing. *)
Record CorrectionDirective := {
  ruleId : string;
  target : string;
  adjustmentPct : Q;
  rationale : string;
  relevanceScore : Q
}.

(** Modelled from the spec: clamping of a numeric input to its range
    (sections 4.1, 6 and 7: clamp, do not reject); the pipeline code is
    missing. *)
Definition clamp (lo hi x : Q) : Q :=
  if lt x lo then lo else if gt x hi then hi else x.

(** Modelled from the spec: the number of entries of a list as a
    number; the pipeline code is missing. *)
Definition count {A : Type} (l : list A) : Q :=
  inject_Z (Z.of_nat (length l)).

(** A base note of the catalog, for the scenarios of section 8. *)
Definition sampleMusk : IngredientRecord :=
  {| name := "musk"; family := "musk"; noteClass := base;
     baseConcentrationPct := 45; structuralDescriptor := "C16H30O";
     sustainable := true |}.

Section Validator.

(** The regulatory category of an ingredient and the ceiling of a category:
    the fixed external data table of section 4.5. *)
Variable categoryOf : IngredientRecord -> string.
Variable ceiling : string -> Q.

(** Modelled from the spec: the validator on one ingredient (section 4.5):
    if the observed concentration exceeds the ceiling of its category, it is
    reduced to the ceiling and a violation entry noting the pre-adjustment
    value is recorded; the validator code is missing. *)
Definition validateEntry (e : IngredientRecord * Q) :
    (IngredientRecord * Q) * list Violation :=
  let limit := ceiling (categoryOf (fst e)) in
  if gt (snd e) limit then
    ((fst e, limit),
     [ {| ingredient := name (fst e); limitPct := limit;
          observedPct := snd e; category := categoryOf (fst e) |} ])
  else (e, []).

(** Modelled from the spec: the Compliance Validator (section 4.5), each
    ingredient in turn, the violations in the order of the formula; the
    formula is valid when no violation was recorded.  The redistribution of
    the removed mass, which the specification makes optional and whose
    weighting it leaves open, is not done: the excess is removed.  The
    validator code is missing. *)
Fixpoint validateEntries (draft : DraftFormula) : DraftFormula * list Violation :=
  match draft with
  | [] => ([], [])
  | e :: rest =>
      let (e', found) := validateEntry e in
      let (rest', found') := validateEntries rest in
      (e' :: rest', found ++ found')
  end.

(** Modelled from the spec: [validate] of section 4.5, returning the
    adjusted formula with the ComplianceResult; the validator code is
    missing. *)
Definition validate (draft : DraftFormula) : DraftFormula * ComplianceResult :=
  let (adjusted, found) := validateEntries draft in
  (adjusted,
   {| valid := match found with [] => true | _ => false end;
      violations := found |}).

(** An ingredient of the adjusted formula against the same ingredient of
    the draft: never more than before, and if less, then at the ceiling with
    the violation on record. *)
Definition adjustedFrom (found : list Violation)
    (before after : IngredientRecord * Q) : Prop :=
  fst after = fst before /\
  snd after <= snd before /\
  (snd after < snd before ->
   snd after = ceiling (categoryOf (fst before)) /\
   In {| ingredient := name (fst before);
         limitPct := ceiling (categoryOf (fst before));
         observedPct := snd before;
         category := categoryOf (fst before) |} found).

Section Orchestrator.

(** The stages before the validator, sections 4.1 to 4.4, and the four
    metrics of section 4.6 that do not depend on compliance. *)
Variable WeightedAccords : Type.
Variable emotionMap : Q -> Q -> WeightedAccords.
Variable retrieve : BiochemicalProfile -> list CorrectionDirective.
Variable assemble : WeightedAccords -> list CorrectionDirective -> DraftFormula.
Variable longevityOf projectionOf uniquenessOf sustainabilityOf : DraftFormula -> Q.

(** Modelled from the spec: the Orchestrator (section 4.6): the emotion
    mapper on the clamped target, the assembler with the directives of the
    retriever for the clamped profile, the validator, then the metrics with
    complianceScore = 1 - violation count / ingredient count; the
    orchestrator code is missing. *)
Definition generateFormula (profile : BiochemicalProfile)
    (emotionalTarget : EmotionalTarget) : Formula * ComplianceResult :=
  let clamped :=
    {| ph := clamp 3.0 9.0 (ph profile); skinType := skinType profile;
       temperatureC := clamp 35.0 38.0 (temperatureC profile) |} in
  let weights :=
    emotionMap (clamp (-1) 1 (valence emotionalTarget))
               (clamp (-1) 1 (arousal emotionalTarget)) in
  let directives := retrieve clamped in
  let draft := assemble weights directives in
  let (final, result) := validate draft in
  ({| entries := final;
      metrics :=
        {| longevity := longevityOf final;
           projection := projectionOf final;
           uniqueness := uniquenessOf final;
           sustainability := sustainabilityOf final;
           complianceScore := 1 - count (violations result) / count final |} |},
   result).

End Orchestrator.

End Validator.

End Pipeline.

(** * Theorems *)

(** ** Comparisons *)

Lemma gt_true (x y : Q) : gt x y = true <-> y < x.
Proof.
  unfold gt. rewrite negb_true_iff, <- not_true_iff_false, Qle_bool_iff.
  split; [apply Qnot_le_lt | apply Qlt_not_le].
Qed.

Lemma gt_false (x y : Q) : gt x y = false <-> x <= y.
Proof. unfold gt. rewrite negb_false_iff, Qle_bool_iff. reflexivity. Qed.

Lemma lt_true (x y : Q) : lt x y = true <-> x < y.
Proof. unfold lt. apply (gt_true y x). Qed.

Lemma lt_false (x y : Q) : lt x y = false <-> y <= x.
Proof. unfold lt. apply (gt_false y x). Qed.

Lemma Qle_bool_false (x y : Q) : Qle_bool x y = false <-> y < x.
Proof.
  rewrite <- (gt_true x y). unfold gt. rewrite negb_true_iff. reflexivity.
Qed.

(** Case analysis on every comparison of the goal, each turned into the
    order fact it decides. *)
Ltac cmp_cases :=
  repeat match goal with
  | |- context [gt ?x ?y] =>
      let E := fresh "E" in
      destruct (gt x y) eqn:E;
      [apply gt_true in E | apply gt_false in E]
  | |- context [lt ?x ?y] =>
      let E := fresh "E" in
      destruct (lt x y) eqn:E;
      [apply lt_true in E | apply lt_false in E]
  end.

(** Split the conjunctions and equivalences of the goal, leaving the
    implications. *)
Ltac split_all :=
  repeat match goal with
  | |- _ /\ _ => split
  | |- _ <-> _ => split
  end.

(** ** The neuro-brief page *)

Module NeuroBriefFacts.
Import NeuroBriefPage.

Example trim_strips_both_ends :
  trim (utf16 "  oud and amber   ") = utf16 "oud and amber".
Proof. reflexivity. Qed.

Example trim_blank : trim [9; 32; 160; 10; 8232; 12288]%N = [].
Proof. reflexivity. Qed.

Example getMoodLabel_corners :
  getMoodLabel 1 1 = "Excited / Joyful" /\
  getMoodLabel 1 (-1) = "Calm / Content" /\
  getMoodLabel (-1) 1 = "Tense / Anxious" /\
  getMoodLabel (-1) (-1) = "Melancholic / Sad" /\
  getMoodLabel 0 0 = "Neutral / Balanced" /\
  getMoodLabel 0.15 0.9 = "Neutral / Balanced".
Proof. repeat split. Qed.

(** The label is neutral exactly on the band around the axes. *)
Lemma getMoodLabel_neutral (v a : Q) :
  getMoodLabel v a = "Neutral / Balanced" <-> nearAxis v a.
Proof.
  unfold getMoodLabel, nearAxis. rewrite !Qabs_Qle_condition.
  cmp_cases; cbn [andb]; split; intros H; try discriminate; try reflexivity;
    try (exfalso; lra); try (left; lra); try (right; lra).
Qed.

(** Off the band the label is that of the quadrant of the point. *)
Lemma getMoodLabel_quadrant (v a : Q) :
  ~ nearAxis v a -> quadrantLabel v a = Some (getMoodLabel v a).
Proof.
  unfold getMoodLabel, quadrantLabel, nearAxis. rewrite !Qabs_Qle_condition.
  intros H. cmp_cases; cbn [andb]; try reflexivity; exfalso;
    try lra; apply H; try (left; lra); try (right; lra).
Qed.

(** C1, as stated, fails: the point (0.5, 0.1) lies in [-1,1] x [-1,1], in
    the quadrant labelled Excited / Joyful and not in the square around the
    origin (its valence exceeds 0.15), yet [getMoodLabel] answers
    Neutral / Balanced. *)
Lemma getMoodLabel_neutral_off_origin :
  (-1 <= 0.5 <= 1) /\ (-1 <= 0.1 <= 1) /\
  getMoodLabel 0.5 0.1 = "Neutral / Balanced" /\
  ~ nearOrigin 0.5 0.1 /\
  quadrantLabel 0.5 0.1 = Some "Excited / Joyful".
Proof.
  repeat split; try lra; try reflexivity.
  unfold nearOrigin. rewrite !Qabs_Qle_condition. lra.
Qed.

(** C1, amended: for every (valence, arousal) in [-1,1] x [-1,1],
    [getMoodLabel] returns Neutral / Balanced if and only if |valence| <= 0.15
    or |arousal| <= 0.15 (the band around either axis, not only the square
    around the origin), and otherwise returns the label of the quadrant that
    contains the point. *)
Theorem getMoodLabel_band_or_quadrant (v a : Q) :
  -1 <= v <= 1 -> -1 <= a <= 1 ->
  (getMoodLabel v a = "Neutral / Balanced" <-> nearAxis v a) /\
  (~ nearAxis v a -> quadrantLabel v a = Some (getMoodLabel v a)).
Proof.
  intros _ _. split; [apply getMoodLabel_neutral | apply getMoodLabel_quadrant].
Qed.

Lemma getMoodLabel_band_or_quadrant_witness :
  quadrantLabel 0.3 0.2 = Some (getMoodLabel 0.3 0.2).
Proof.
  refine (proj2 (getMoodLabel_band_or_quadrant 0.3 0.2 _ _) _).
  - split; vm_compute; discriminate.
  - split; vm_compute; discriminate.
  - unfold nearAxis. rewrite !Qabs_Qle_condition. lra.
Defined.

(** C4: at valence 0.3 and arousal 0.2, the initial position of the page,
    the label is Excited / Joyful. *)
Theorem getMoodLabel_initial_target :
  getMoodLabel 0.3 0.2 = "Excited / Joyful".
Proof. reflexivity. Qed.

(** The relative position of a click on the element lies in [0,1]. *)
Lemma relative_position (c o w : Q) :
  0 < w -> o <= c <= o + w -> 0 <= (c - o) / w <= 1.
Proof.
  intros Hw [Hlo Hhi]. split.
  - apply Qle_shift_div_l; [exact Hw | lra].
  - apply Qle_shift_div_r; [exact Hw | lra].
Qed.

(** C2, as stated, fails: a click event whose coordinates lie to the right
    of the element (clientX 200 on an element spanning 0..100) is delivered
    to the page as valence 3; nothing clamps it. *)
Lemma clickQuadrant_outside_not_clamped :
  valence (clickQuadrant {| left := 0; top := 0; width := 100; height := 100 |}
             {| clientX := 200; clientY := 50 |} initialState) == 3 /\
  ~ (-1 <= valence (clickQuadrant
                      {| left := 0; top := 0; width := 100; height := 100 |}
                      {| clientX := 200; clientY := 50 |} initialState) <= 1).
Proof.
  split; [reflexivity |].
  intros [_ H]. vm_compute in H. apply H. reflexivity.
Qed.

(** C2, amended: the mood-quadrant input path does not clamp.  Every click
    is delivered to the consumer, none is rejected: on an element of
    non-zero width and height the page takes the valence 2x - 1 and the
    arousal 2y - 1 of the relative position (x, y) of the click, and nothing
    else of the page changes.  The delivered valence and arousal lie in
    [-1,1] whenever the click falls on the element (its rectangle having
    positive width and height). *)
Theorem clickQuadrant_delivers (rect : DOMRect) (e : MouseEvent) (s : State) :
  let x := (clientX e - left rect) / width rect in
  let y := 1 - (clientY e - top rect) / height rect in
  (~ width rect == 0 -> ~ height rect == 0 ->
   clickQuadrant rect e s =
     {| prompt := prompt s; valence := x * 2 - 1; arousal := y * 2 - 1;
        isSubmitting := isSubmitting s;
        showSuggestions := showSuggestions s |}) /\
  (inside rect e ->
   -1 <= valence (clickQuadrant rect e s) <= 1 /\
   -1 <= arousal (clickQuadrant rect e s) <= 1).
Proof.
  split; [reflexivity |].
  intros (Hw & Hh & Hx & Hy).
  pose proof (relative_position _ _ _ Hw Hx) as Px.
  pose proof (relative_position _ _ _ Hh Hy) as Py.
  cbn [clickQuadrant handleClick onPositionChange setArousal setValence
       valence arousal].
  revert Px Py.
  generalize ((clientX e - left rect) / width rect).
  generalize ((clientY e - top rect) / height rect).
  intros q q0 Px Py. repeat split; lra.
Qed.

Lemma clickQuadrant_delivers_witness :
  -1 <= valence (clickQuadrant
                   {| left := 10; top := 20; width := 200; height := 200 |}
                   {| clientX := 160; clientY := 70 |} initialState) <= 1 /\
  -1 <= arousal (clickQuadrant
                   {| left := 10; top := 20; width := 200; height := 200 |}
                   {| clientX := 160; clientY := 70 |} initialState) <= 1.
Proof.
  apply (proj2 (clickQuadrant_delivers
                  {| left := 10; top := 20; width := 200; height := 200 |}
                  {| clientX := 160; clientY := 70 |} initialState)).
  unfold inside; cbn. repeat split; vm_compute; discriminate.
Defined.

(** C8: [handleSubmit] stores the neuro-brief record (prompt, valence,
    arousal, time stamp) and navigates to the result page if and only if the
    trimmed prompt is strictly longer than 10 code units; when the trimmed
    prompt has at most 10, it returns with nothing stored and no navigation
    (the world is unchanged). *)
Theorem handleSubmit_iff_long_prompt (now : string) (w : World) :
  let record :=
    NeuroBriefItem
      {| nr_prompt := prompt (page w); nr_valence := valence (page w);
         nr_arousal := arousal (page w); nr_timestamp := now |} in
  ((10 < length (trim (prompt (page w))))%nat ->
   handleSubmit now w =
     {| page := setIsSubmitting true (page w);
        localStorage := <["sensora_neuro_brief" := record]> (localStorage w);
        route := route w ++ ["/result"] |}) /\
  ((length (trim (prompt (page w))) <= 10)%nat -> handleSubmit now w = w) /\
  ((localStorage (handleSubmit now w) !! "sensora_neuro_brief" = Some record /\
    route (handleSubmit now w) = route w ++ ["/result"])
   <-> (10 < length (trim (prompt (page w))))%nat).
Proof.
  cbv zeta. unfold handleSubmit, canProceed.
  destruct (Nat.ltb_spec 10 (length (trim (prompt (page w))))) as [Hlong | Hshort];
    cbn [negb].
  - split; [reflexivity |]. split; [lia |].
    split; [intros _; exact Hlong |]. intros _. cbn [localStorage route].
    split; [apply lookup_insert_eq | reflexivity].
  - split; [lia |]. split; [reflexivity |].
    split; [| lia]. intros [_ Hroute]. exfalso.
    apply (f_equal (@length string)) in Hroute.
    rewrite length_app in Hroute. cbn in Hroute. lia.
Qed.

(** A suggested prompt is submitted; a three-letter prompt padded with ten
    blanks, thirteen code units long, is not. *)
Lemma handleSubmit_iff_long_prompt_witness :
  route (handleSubmit "2025-01-01T00:00:00.000Z"
           {| page := setValence 0.3
                        {| prompt := utf16 "Warm amber light through honey-colored glass";
                           valence := 0; arousal := 0.2;
                           isSubmitting := false; showSuggestions := false |};
              localStorage := ∅; route := [] |}) = ["/result"] /\
  handleSubmit "2025-01-01T00:00:00.000Z"
    {| page := {| prompt := utf16 "oud          "; valence := 0.3;
                  arousal := 0.2; isSubmitting := false;
                  showSuggestions := false |};
       localStorage := ∅; route := [] |}
  = {| page := {| prompt := utf16 "oud          "; valence := 0.3;
                  arousal := 0.2; isSubmitting := false;
                  showSuggestions := false |};
       localStorage := ∅; route := [] |}.
Proof.
  split.
  - rewrite (proj1 (handleSubmit_iff_long_prompt _ _)); [reflexivity |].
    vm_compute. lia.
  - apply (proj1 (proj2 (handleSubmit_iff_long_prompt _ _))).
    vm_compute. lia.
Defined.

(** *** The rest of the page *)

Lemma trimStart_length (s : JSString) : (length (trimStart s) <= length s)%nat.
Proof.
  induction s as [| c s IH]; cbn; [lia |].
  destruct (isWhiteSpace c); cbn; lia.
Qed.

Lemma trim_length (s : JSString) : (length (trim s) <= length s)%nat.
Proof.
  unfold trim, trimEnd. rewrite length_rev.
  pose proof (trimStart_length (rev (trimStart s))) as H1.
  rewrite length_rev in H1. pose proof (trimStart_length s). lia.
Qed.

(** The colour of the indicator and the label under it always name the
    same mood. *)
Theorem getMoodColor_matches_label (v a : Q) :
  (getMoodColor v a = "#FBBF24" <-> getMoodLabel v a = "Excited / Joyful") /\
  (getMoodColor v a = "#10B981" <-> getMoodLabel v a = "Calm / Content") /\
  (getMoodColor v a = "#F43F5E" <-> getMoodLabel v a = "Tense / Anxious") /\
  (getMoodColor v a = "#6366F1" <-> getMoodLabel v a = "Melancholic / Sad") /\
  (getMoodColor v a = "#6B7280" <-> getMoodLabel v a = "Neutral / Balanced").
Proof.
  unfold getMoodColor, getMoodLabel.
  destruct (gt v 0.15), (gt a 0.15), (lt v (-0.15)), (lt a (-0.15)); cbn;
    repeat split; intros H; try discriminate H; reflexivity.
Qed.

Lemma relative_position_mono (c1 c2 o w : Q) :
  0 < w -> c1 <= c2 -> (c1 - o) / w <= (c2 - o) / w.
Proof.
  intros Hw Hc. unfold Qdiv. apply Qmult_le_compat_r; [lra |].
  apply Qinv_le_0_compat. lra.
Qed.

Lemma xPos_linear (v : Q) : xPos v == 50 * v + 50.
Proof. unfold xPos. field. Qed.

Lemma yPos_linear (a : Q) : yPos a == 50 - 50 * a.
Proof. unfold yPos. field. Qed.

(** The indicator follows the click and stays on the element.  After a
    click that falls on the element, the indicator is drawn between 0 and
    100 percent of its width and of its height; and of two clicks on an
    element of positive size, the one further to the right is never drawn
    further to the left, the one further down never further up. *)
Theorem indicator_on_element (rect : DOMRect) (s : State) :
  (forall e, inside rect e ->
     0 <= xPos (valence (clickQuadrant rect e s)) <= 100 /\
     0 <= yPos (arousal (clickQuadrant rect e s)) <= 100) /\
  (forall e1 e2, 0 < width rect -> clientX e1 <= clientX e2 ->
     xPos (valence (clickQuadrant rect e1 s))
     <= xPos (valence (clickQuadrant rect e2 s))) /\
  (forall e1 e2, 0 < height rect -> clientY e1 <= clientY e2 ->
     yPos (arousal (clickQuadrant rect e1 s))
     <= yPos (arousal (clickQuadrant rect e2 s))).
Proof.
  split; [| split].
  - intros e (Hw & Hh & Hx & Hy).
    pose proof (relative_position _ _ _ Hw Hx) as Px.
    pose proof (relative_position _ _ _ Hh Hy) as Py.
    rewrite xPos_linear, yPos_linear.
    cbn [clickQuadrant handleClick onPositionChange setArousal setValence
         valence arousal].
    revert Px Py.
    generalize ((clientX e - left rect) / width rect).
    generalize ((clientY e - top rect) / height rect).
    intros q q0 Px Py. repeat split; lra.
  - intros e1 e2 Hw Hle.
    pose proof (relative_position_mono _ _ (left rect) _ Hw Hle) as Hq.
    rewrite !xPos_linear.
    cbn [clickQuadrant handleClick onPositionChange setArousal setValence valence].
    revert Hq.
    generalize ((clientX e1 - left rect) / width rect).
    generalize ((clientX e2 - left rect) / width rect).
    intros q2 q1 Hq. lra.
  - intros e1 e2 Hh Hle.
    pose proof (relative_position_mono _ _ (top rect) _ Hh Hle) as Hq.
    rewrite !yPos_linear.
    cbn [clickQuadrant handleClick onPositionChange setArousal setValence arousal].
    revert Hq.
    generalize ((clientY e1 - top rect) / height rect).
    generalize ((clientY e2 - top rect) / height rect).
    intros q2 q1 Hq. lra.
Qed.

Lemma indicator_on_element_witness :
  0 <= xPos (valence (clickQuadrant
                        {| left := 10; top := 20; width := 200; height := 200 |}
                        {| clientX := 160; clientY := 70 |} initialState)) <= 100 /\
  0 <= yPos (arousal (clickQuadrant
                        {| left := 10; top := 20; width := 200; height := 200 |}
                        {| clientX := 160; clientY := 70 |} initialState)) <= 100.
Proof.
  apply (proj1 (indicator_on_element
                  {| left := 10; top := 20; width := 200; height := 200 |}
                  initialState)).
  unfold inside; cbn. repeat split; vm_compute; discriminate.
Defined.

(** Whenever the submit button lets the user proceed, the hint under the
    textarea reads Ready; the converse fails: a prompt of exactly 10 code
    units reads Ready while the page does not let the user proceed. *)
Theorem canProceed_implies_ready (s : State) :
  (canProceed s = true -> statusHint s = "Ready") /\
  (length (prompt s) = 10%nat ->
   statusHint s = "Ready" /\ canProceed s = false).
Proof.
  unfold canProceed, statusHint. pose proof (trim_length (prompt s)) as Hle.
  split.
  - intros H. apply Nat.ltb_lt in H.
    destruct (Nat.ltb_spec (length (prompt s)) 10); [lia | reflexivity].
  - intros H. rewrite H in *. split; [reflexivity |].
    apply Nat.ltb_ge. exact Hle.
Qed.

Lemma canProceed_implies_ready_witness :
  statusHint (onPromptChange (utf16 "  smoky vetiver  ") initialState) = "Ready" /\
  canProceed (onPromptChange (utf16 "sandalwood") initialState) = false.
Proof.
  split.
  - apply (proj1 (canProceed_implies_ready _)). reflexivity.
  - apply (proj2 (canProceed_implies_ready _)). reflexivity.
Defined.

(** Every suggested prompt can be submitted as it is: after the click on a
    suggestion the prompt is the suggestion, it fits the textarea, the page
    lets the user proceed, and the suggestions are no longer rendered. *)
Theorem suggestion_click_can_proceed (suggestion : JSString) (s : State) :
  In suggestion suggestedPrompts ->
  prompt (onSuggestionClick suggestion s) = suggestion /\
  (length suggestion <= maxLength)%nat /\
  canProceed (onSuggestionClick suggestion s) = true /\
  suggestionsVisible (onSuggestionClick suggestion s) = false.
Proof.
  intros Hin. cbn in Hin.
  destruct Hin as [<- | [<- | [<- | [<- | [<- | []]]]]];
    (split; [reflexivity |]); (split; [vm_compute; lia |]);
    split; reflexivity.
Qed.

Lemma suggestion_click_can_proceed_witness :
  canProceed
    (onSuggestionClick (utf16 "Velvet petals falling on ancient stone steps")
       initialState) = true.
Proof.
  apply (suggestion_click_can_proceed
           (utf16 "Velvet petals falling on ancient stone steps") initialState).
  cbn. tauto.
Defined.

Lemma suggestedPrompts_fit (suggestion : JSString) :
  In suggestion suggestedPrompts -> (length suggestion <= maxLength)%nat.
Proof.
  intros Hin. cbn in Hin.
  destruct Hin as [<- | [<- | [<- | [<- | [<- | []]]]]]; vm_compute; lia.
Qed.

(** No handler of the page writes the calibration entry of the store. *)
Lemma step_keeps_calibration (w : World) (e : Event) (w' : World) :
  step w e w' ->
  localStorage w' !! "sensora_calibration" = localStorage w !! "sensora_calibration".
Proof.
  intros Hstep.
  destruct Hstep as [w v _ | w sg _ _ | w rect e | w now _]; try reflexivity.
  unfold handleSubmit. destruct (canProceed (page w)); cbn; [| reflexivity].
  apply lookup_insert_ne. discriminate.
Qed.

Lemma steps_keep_calibration (w w' : World) :
  steps w w' ->
  localStorage w' !! "sensora_calibration" = localStorage w !! "sensora_calibration".
Proof.
  induction 1 as [| w1 e w2 _ IH Hstep]; [reflexivity |].
  rewrite (step_keeps_calibration _ _ _ Hstep). exact IH.
Qed.

Lemma step_worldOk (w : World) (e : Event) (w' : World) :
  step w e w' -> worldOk w -> worldOk w'.
Proof.
  intros Hstep [Hlen Hstore].
  destruct Hstep as [w v Hv | w sg Hin _ | w rect e | w now Hen].
  - split; [exact Hv | exact Hstore].
  - split; [exact (suggestedPrompts_fit _ Hin) | exact Hstore].
  - split; [exact Hlen | exact Hstore].
  - unfold submitDisabled in Hen. apply orb_false_elim in Hen as [Hcan Hsub].
    apply negb_false_iff in Hcan.
    unfold handleSubmit. rewrite Hcan. cbn [negb]. split; [exact Hlen |].
    unfold storedBrief. cbn [localStorage page]. rewrite lookup_insert_eq.
    split; [| reflexivity]. split; cbn; [| exact Hlen].
    unfold canProceed in Hcan. apply Nat.ltb_lt in Hcan. exact Hcan.
Qed.

Lemma step_keeps_brief (w : World) (e : Event) (w' : World) (d : NeuroBriefRecord) :
  step w e w' -> worldOk w -> storedBrief w = Some (NeuroBriefItem d) ->
  storedBrief w' = Some (NeuroBriefItem d).
Proof.
  intros Hstep [_ Hstore] Hd.
  destruct Hstep as [w v _ | w sg _ _ | w rect e | w now Hen]; try exact Hd.
  rewrite Hd in Hstore. destruct Hstore as [_ Hsub].
  unfold submitDisabled in Hen. rewrite Hsub, orb_true_r in Hen. discriminate.
Qed.

Lemma mount_storage (storage : gmap string StoredItem) (history : list string) :
  localStorage (mount storage history) = storage /\
  page (mount storage history) = initialState.
Proof.
  unfold mount, checkCalibration. cbn.
  destruct (storage !! "sensora_calibration"); split; reflexivity.
Qed.

(** Every neuro-brief the page stores has a prompt whose trimmed length is
    above 10 and whose length is at most the 500 of the textarea; once
    stored it is not written again, whatever the user does next on the
    page; and the page never touches the stored calibration.  This holds in
    every world reached from a mount on a storage without a neuro-brief. *)
Theorem stored_brief_invariant (storage : gmap string StoredItem)
    (history : list string) (w : World) :
  storage !! "sensora_neuro_brief" = None ->
  steps (mount storage history) w ->
  (forall d, storedBrief w = Some (NeuroBriefItem d) -> briefOk d) /\
  (forall d w', storedBrief w = Some (NeuroBriefItem d) -> steps w w' ->
     storedBrief w' = Some (NeuroBriefItem d)) /\
  localStorage w !! "sensora_calibration" = storage !! "sensora_calibration".
Proof.
  intros Hnone Hsteps.
  destruct (mount_storage storage history) as [Hst Hpg].
  assert (Hok : worldOk w).
  { induction Hsteps as [| w1 e w2 _ IH Hstep].
    - unfold worldOk, storedBrief. rewrite Hst, Hpg, Hnone.
      split; [cbn; unfold maxLength; lia | exact I].
    - exact (step_worldOk _ _ _ Hstep IH). }
  split; [| split].
  - intros d Hd. destruct Hok as [_ Hstore]. rewrite Hd in Hstore. tauto.
  - intros d w' Hd Hsteps'. revert Hd.
    enough (worldOk w' /\ (storedBrief w = Some (NeuroBriefItem d) ->
                           storedBrief w' = Some (NeuroBriefItem d))) by tauto.
    induction Hsteps' as [| w1 e w2 _ [IHok IHd] Hstep].
    + split; [exact Hok | auto].
    + split; [exact (step_worldOk _ _ _ Hstep IHok) |].
      intros Hd. exact (step_keeps_brief _ _ _ _ Hstep IHok (IHd Hd)).
  - rewrite (steps_keep_calibration _ _ Hsteps), Hst. reflexivity.
Qed.

Lemma stored_brief_invariant_witness :
  briefOk
    {| nr_prompt := utf16 "Warm amber light through honey-colored glass";
       nr_valence := 0.3; nr_arousal := 0.2;
       nr_timestamp := "2025-01-01T00:00:00.000Z" |}.
Proof.
  refine (proj1 (stored_brief_invariant ∅ []
            (handleSubmit "2025-01-01T00:00:00.000Z"
               (onPage (onSuggestionClick
                          (utf16 "Warm amber light through honey-colored glass"))
                  (mount ∅ []))) _ _) _ _).
  - reflexivity.
  - apply (steps_cons _
             (onPage (onSuggestionClick
                        (utf16 "Warm amber light through honey-colored glass"))
                (mount ∅ []))
             (ClickSubmit "2025-01-01T00:00:00.000Z")).
    + apply (steps_cons _ (mount ∅ [])
               (ClickSuggestion
                  (utf16 "Warm amber light through honey-colored glass")));
        [apply steps_nil |].
      apply on_suggestion; [right; left; reflexivity | reflexivity].
    + apply on_submit. reflexivity.
  - reflexivity.
Defined.

(** Once the user has typed in the textarea or picked a suggestion, the
    suggestions are never rendered again, even when the prompt is emptied:
    no handler of the page turns [showSuggestions] back on. *)
Theorem suggestions_stay_hidden (w w' : World) :
  steps w w' -> showSuggestions (page w) = false ->
  showSuggestions (page w') = false /\ suggestionsVisible (page w') = false.
Proof.
  intros Hsteps Hhid.
  enough (H : showSuggestions (page w') = false).
  { split; [exact H |]. unfold suggestionsVisible. rewrite H. reflexivity. }
  induction Hsteps as [| w1 e w2 _ IH Hstep]; [exact Hhid |].
  destruct Hstep as [w1 v _ | w1 sg _ _ | w1 rect e | w1 now _];
    try reflexivity; try exact IH.
  unfold handleSubmit. destruct (canProceed (page w1)); cbn; exact IH.
Qed.

Lemma suggestions_stay_hidden_witness :
  suggestionsVisible
    (page (onPage (onPromptChange [])
             (onPage (onPromptChange (utf16 "oud"))
                {| page := initialState; localStorage := ∅; route := [] |})))
  = false.
Proof.
  refine (proj2 (suggestions_stay_hidden
                   (onPage (onPromptChange (utf16 "oud"))
                      {| page := initialState; localStorage := ∅; route := [] |})
                   _ _ _)).
  - apply (steps_cons _
             (onPage (onPromptChange (utf16 "oud"))
                {| page := initialState; localStorage := ∅; route := [] |})
             (TypePrompt [])); [apply steps_nil |].
    apply (on_type _ []). cbn. unfold maxLength. lia.
  - reflexivity.
Defined.

End NeuroBriefFacts.

(** ** The calibration page *)

Module CalibrationFacts.
Import CalibrationPage.

Lemma skinTypes_ids (t : SkinTypeOption) :
  In t skinTypes -> id t = "dry" \/ id t = "normal" \/ id t = "oily".
Proof.
  cbn. intros [<- | [<- | [<- | []]]]; cbn; auto.
Qed.

Lemma calibrationData_inRanges (now : string) (s : State) :
  pageOk s -> canProceed s = true -> inRanges (calibrationData now s).
Proof.
  intros (Hph & Htemp & Hskin) Hcan. unfold inRanges. cbn.
  split; [exact Hph |]. split; [exact Htemp |].
  destruct Hskin as [Hnone | (t & Hin & ->)].
  - unfold canProceed in Hcan. rewrite Hnone in Hcan. discriminate.
  - destruct (skinTypes_ids t Hin) as [-> | [-> | ->]]; auto.
Qed.

Lemma step_invariant (w : World) (e : Event) (w' : World) :
  step w e w' -> pageOk (page w) /\ storeOk w -> pageOk (page w') /\ storeOk w'.
Proof.
  intros Hstep [Hpage Hstore]. pose proof Hpage as (Hph & Htemp & Hskin).
  destruct Hstep as [w v Hv | w v Hv | w t Ht | w v | w v | w v | w a | w now Hen];
    try (split; [unfold pageOk; cbn; tauto | exact Hstore]).
  - split; [| exact Hstore]. unfold pageOk. cbn.
    split; [exact Hph |]. split; [exact Htemp |]. right. exists t. auto.
  - unfold submitDisabled in Hen. apply orb_false_elim in Hen as [Hcan Hsub].
    apply negb_false_iff in Hcan.
    unfold handleSubmit. rewrite Hcan. cbn [negb]. split.
    + exact Hpage.
    + unfold storeOk, stored. cbn [localStorage page].
      rewrite lookup_insert_eq. split; [| reflexivity].
      apply calibrationData_inRanges; assumption.
Qed.

Lemma reachable_invariant (w : World) :
  reachable w -> pageOk (page w) /\ storeOk w.
Proof.
  unfold reachable. induction 1 as [| w1 e w2 _ IH Hstep].
  - split; [| exact I]. repeat split; cbn; try lra; auto.
  - exact (step_invariant _ _ _ Hstep IH).
Qed.

Lemma step_ranges (w : World) (e : Event) (w' : World) :
  step w e w' -> pageOk (page w) /\ storeRanges w ->
  pageOk (page w') /\ storeRanges w'.
Proof.
  intros Hstep [Hpage Hstore]. pose proof Hpage as (Hph & Htemp & Hskin).
  destruct Hstep as [w v Hv | w v Hv | w t Ht | w v | w v | w v | w a | w now Hen];
    try (split; [unfold pageOk; cbn; tauto | exact Hstore]).
  - split; [| exact Hstore]. unfold pageOk. cbn.
    split; [exact Hph |]. split; [exact Htemp |]. right. exists t. auto.
  - unfold submitDisabled in Hen. apply orb_false_elim in Hen as [Hcan _].
    apply negb_false_iff in Hcan.
    unfold handleSubmit. rewrite Hcan. cbn [negb]. split; [exact Hpage |].
    unfold storeRanges, stored. cbn [localStorage]. rewrite lookup_insert_eq.
    apply calibrationData_inRanges; assumption.
Qed.

Lemma visited_ranges (w : World) :
  visited w -> pageOk (page w) /\ storeRanges w.
Proof.
  unfold visited.
  induction 1 as [| w1 e w2 _ IH Hstep | w1 storage history _ IH Hsame].
  - split; [| exact I]. repeat split; cbn; try lra; auto.
  - exact (step_ranges _ _ _ Hstep IH).
  - split; [repeat split; cbn; try lra; auto |].
    destruct IH as [_ Hstore]. unfold storeRanges, stored in *. cbn.
    rewrite Hsame. exact Hstore.
Qed.

(** While the page that stored a record is mounted, no event writes the
    store again: the submit button stays disabled. *)
Lemma steps_after_submit (w w' : World) (item : StoredItem) :
  steps w w' -> isSubmitting (page w) = true -> stored w = Some item ->
  isSubmitting (page w') = true /\ stored w' = Some item.
Proof.
  intros Hsteps Hsub Hitem.
  induction Hsteps as [| w1 e w2 _ [IHsub IHitem] Hstep]; [auto |].
  destruct Hstep as [w1 v _ | w1 v _ | w1 t _ | w1 v | w1 v | w1 v | w1 a | w1 now Hen];
    try (split; assumption).
  unfold submitDisabled in Hen. rewrite IHsub, orb_true_r in Hen. discriminate.
Qed.

(** C3, as stated, fails: the record captured in the sample session (pH 6.2,
    dry) does not stay as stored.  The page is mounted again on the same
    storage, as the Back link of the neuro-brief page does, the oily skin
    type is chosen and the form submitted: the store then holds another
    record under the same key. *)
Lemma stored_profile_replaced_on_revisit :
  session sampleSession sampleRevisit /\
  stored sampleSession
  = Some (CalibrationItem
            {| cr_ph := 6.2; cr_skinType := Some "dry"; cr_temperature := 36.5;
               cr_stressLevel := 50; cr_heartRate := 72;
               cr_lifestyleScenario := EmptyString;
               cr_timestamp := "2025-01-01T00:00:00.000Z" |}) /\
  stored sampleRevisit
  = Some (CalibrationItem
            {| cr_ph := 5.5; cr_skinType := Some "oily"; cr_temperature := 36.5;
               cr_stressLevel := 50; cr_heartRate := 72;
               cr_lifestyleScenario := EmptyString;
               cr_timestamp := "2025-01-02T00:00:00.000Z" |}) /\
  stored sampleRevisit <> stored sampleSession.
Proof.
  split; [| split; [reflexivity | split; [reflexivity |]]].
  - unfold sampleRevisit.
    eapply session_event; [eapply session_event |].
    + apply (session_remount _ sampleSession (localStorage sampleSession)
               ["/neuro-brief"; "/calibration"]);
        [apply session_start | reflexivity].
    + apply (step_skinType _ {| id := "oily"; label := "Oily";
         description := "Shiny appearance, enlarged pores, prone to breakouts" |}).
      right. right. left. reflexivity.
    + apply step_submit. reflexivity.
  - intros H. vm_compute in H. discriminate H.
Qed.

(** C3, amended: in every world of a session that starts with the first
    mount of the page, also after the page was mounted again, the stored
    calibration has its pH in [3.0, 9.0], its temperature in [35.0, 38.0]
    and its skin type among dry, normal and oily; while the skin type is
    unset [handleSubmit] stores nothing; and the record a submission stores
    stays exactly as stored through every later event of the page that
    stored it (a later mount of the page may replace it, by a record within
    the ranges). *)
Theorem captured_profile_in_ranges_per_mount (w : World) :
  visited w ->
  (forall d, stored w = Some (CalibrationItem d) -> inRanges d) /\
  (forall now, skinType (page w) = None -> handleSubmit now w = w) /\
  (forall now w',
     submitDisabled (page w) = false -> steps (handleSubmit now w) w' ->
     stored w' = Some (CalibrationItem (calibrationData now (page w))) /\
     inRanges (calibrationData now (page w))).
Proof.
  intros Hvisited. pose proof (visited_ranges w Hvisited) as [Hpage Hstore].
  split; [| split].
  - intros d Hd. unfold storeRanges in Hstore. rewrite Hd in Hstore. exact Hstore.
  - intros now Hnone. unfold handleSubmit, canProceed. rewrite Hnone. reflexivity.
  - intros now w' Hen Hsteps.
    unfold submitDisabled in Hen. apply orb_false_elim in Hen as [Hcan _].
    apply negb_false_iff in Hcan.
    split; [| apply calibrationData_inRanges; assumption].
    refine (proj2 (steps_after_submit _ _ _ Hsteps _ _)).
    + unfold handleSubmit. rewrite Hcan. reflexivity.
    + unfold handleSubmit, stored. rewrite Hcan. cbn. apply lookup_insert_eq.
Qed.

Lemma sampleSession_reachable : reachable sampleSession.
Proof.
  unfold reachable, sampleSession.
  eapply steps_snoc; [eapply steps_snoc; [eapply steps_snoc |] |].
  - apply steps_refl.
  - apply (step_ph initialWorld 6.2). split; vm_compute; discriminate.
  - apply (step_skinType _ {| id := "dry"; label := "Dry";
       description := "Tight feeling, visible flakes, matte appearance" |}).
    left. reflexivity.
  - apply step_submit. reflexivity.
Defined.

Lemma sampleRevisit_visited : visited sampleRevisit.
Proof.
  unfold visited, sampleRevisit.
  eapply session_event; [eapply session_event |].
  - apply (session_remount _ sampleSession (localStorage sampleSession)
             ["/neuro-brief"; "/calibration"]); [| reflexivity].
    unfold sampleSession.
    eapply session_event; [eapply session_event; [eapply session_event |] |].
    + apply session_start.
    + apply (step_ph initialWorld 6.2). split; vm_compute; discriminate.
    + apply (step_skinType _ {| id := "dry"; label := "Dry";
         description := "Tight feeling, visible flakes, matte appearance" |}).
      left. reflexivity.
    + apply step_submit. reflexivity.
  - apply (step_skinType _ {| id := "oily"; label := "Oily";
       description := "Shiny appearance, enlarged pores, prone to breakouts" |}).
    right. right. left. reflexivity.
  - apply step_submit. reflexivity.
Defined.

Lemma captured_profile_in_ranges_per_mount_witness :
  inRanges
    {| cr_ph := 5.5; cr_skinType := Some "oily"; cr_temperature := 36.5;
       cr_stressLevel := 50; cr_heartRate := 72;
       cr_lifestyleScenario := EmptyString;
       cr_timestamp := "2025-01-02T00:00:00.000Z" |}.
Proof.
  apply (proj1 (captured_profile_in_ranges_per_mount sampleRevisit
                  sampleRevisit_visited)).
  reflexivity.
Defined.

(** *** The pH indicator *)

(** [getPhLabel] names the band of the pH: Very Acidic below 4.5, Acidic
    from 4.5 to below 5.5, Slightly Acidic from 5.5 to below 6.5, Neutral
    from 6.5 to below 7.5, Alkaline from 7.5; and [getPhColor] always paints
    the gradient of the same band. *)
Theorem getPhLabel_bands (ph : Q) :
  ((getPhLabel ph = "Very Acidic" <-> ph < 4.5) /\
   (getPhLabel ph = "Acidic" <-> 4.5 <= ph < 5.5) /\
   (getPhLabel ph = "Slightly Acidic" <-> 5.5 <= ph < 6.5) /\
   (getPhLabel ph = "Neutral" <-> 6.5 <= ph < 7.5) /\
   (getPhLabel ph = "Alkaline" <-> 7.5 <= ph)) /\
  ((getPhColor ph = "from-red-400 to-orange-400" <-> getPhLabel ph = "Very Acidic") /\
   (getPhColor ph = "from-orange-300 to-yellow-300" <-> getPhLabel ph = "Acidic") /\
   (getPhColor ph = "from-yellow-200 to-green-300"
    <-> getPhLabel ph = "Slightly Acidic") /\
   (getPhColor ph = "from-green-300 to-teal-300" <-> getPhLabel ph = "Neutral") /\
   (getPhColor ph = "from-teal-300 to-blue-400" <-> getPhLabel ph = "Alkaline")).
Proof.
  unfold getPhLabel, getPhColor. split.
  - cmp_cases; split_all; intros Hx; try discriminate Hx; try reflexivity;
      try lra; try (destruct Hx; lra); split; lra.
  - destruct (lt ph 4.5), (lt ph 5.5), (lt ph 6.5), (lt ph 7.5);
      split_all; intros Hx; try discriminate Hx; reflexivity.
Qed.

(** In every world reachable on the page the thumb of the pH indicator is
    on its track: its position is between 0 and 100 percent. *)
Theorem thumb_on_track (w : World) :
  reachable w -> 0 <= thumbPercent (ph (page w)) <= 100.
Proof.
  intros Hreach.
  destruct (reachable_invariant w Hreach) as [([Hlo Hhi] & _) _].
  cbn in Hlo, Hhi.
  assert (H : thumbPercent (ph (page w)) == (ph (page w) - 3) * (50 # 3))
    by (unfold thumbPercent; field).
  rewrite H. split; lra.
Qed.

Lemma thumb_on_track_witness :
  0 <= thumbPercent 6.2 <= 100.
Proof.
  exact (thumb_on_track sampleSession sampleSession_reachable).
Defined.

End CalibrationFacts.

(** ** The progress bar *)

Module ProgressFacts.
Import ProgressSteps.

(** For a current step 0, 1 or 2 the bar shows exactly that step as active,
    exactly the steps before it as completed (with a check mark instead of
    their number), and a connector after every step but the last, coloured
    as done exactly before the current step. *)
Theorem one_active_step (c : nat) :
  (c < 3)%nat ->
  forall (i : nat) (view : StepView),
    render (index_number c) !! i = Some view ->
    (active view = true <-> i = c) /\
    (completed view = true <-> (i < c)%nat) /\
    checkMark view = completed view /\
    number view = (i + 1)%nat /\
    (connector view = None <-> i = 2%nat) /\
    (connector view = Some true <-> (i < c)%nat /\ (i < 2)%nat).
Proof.
  intros Hc i view Hview.
  assert (Hcases : c = 0%nat \/ c = 1%nat \/ c = 2%nat) by lia.
  destruct i as [| [| [| i]]]; [| | | discriminate Hview];
    injection Hview as <-;
    destruct Hcases as [-> | [-> | ->]]; vm_compute;
    repeat split; intros; try discriminate; try lia; try reflexivity;
    try (exfalso; lia); try tauto.
Qed.

Lemma one_active_step_witness :
  active (renderStep 1 1) = true /\ completed (renderStep 1 0) = true.
Proof.
  split.
  - apply (proj1 (one_active_step 1 ltac:(lia) 1 (renderStep 1 1) eq_refl)).
    reflexivity.
  - apply (proj1 (proj2 (one_active_step 1 ltac:(lia) 0 (renderStep 1 0) eq_refl))).
    lia.
Defined.

End ProgressFacts.

(** ** The stress profile *)

Module StressFacts.
Import StressProfile.

(** The level buttons agree with the meter and with the initial selection:
    after a click on a level, the parent holds the value of the level, the
    component holds its id, the meter is painted in the colour of the
    button, and a component mounted on that value selects the same level.
    Whatever the stress level, the initial selection is the id of one of
    the three buttons. *)
Theorem level_select_consistent (level : StressLevel) (st : string * CalibrationPage.State) :
  (In level stressLevels ->
   let st' := handleLevelSelect CalibrationPage.setStressLevel level st in
   fst st' = id level /\
   CalibrationPage.stressLevel (snd st') = value level /\
   getStressColor (CalibrationPage.stressLevel (snd st')) = color level /\
   initialSelectedLevel (CalibrationPage.stressLevel (snd st')) = fst st') /\
  In (initialSelectedLevel (CalibrationPage.stressLevel (snd st)))
     (List.map id stressLevels).
Proof.
  split.
  - intros Hin. cbn in Hin.
    destruct Hin as [<- | [<- | [<- | []]]]; repeat split.
  - unfold initialSelectedLevel. cbn.
    destruct (Qeq_bool 25 _); [cbn; tauto |].
    destruct (Qeq_bool 50 _); [cbn; tauto |].
    destruct (Qeq_bool 75 _); cbn; tauto.
Qed.

Lemma level_select_consistent_witness :
  getStressColor
    (CalibrationPage.stressLevel
       (snd (handleLevelSelect CalibrationPage.setStressLevel
               {| id := "high"; label := "High"; value := 75;
                  color := "#F43F5E";
                  description := "Elevated stress levels" |}
               ("medium", CalibrationPage.initialState))))
  = "#F43F5E".
Proof.
  refine (proj1 (proj2 (proj2 (proj1 (level_select_consistent _ _) _)))).
  right. right. left. reflexivity.
Defined.

(** The meter names the band of the stress level, Low Stress up to 33,
    Moderate Stress above 33 up to 66, High Stress above 66, and paints it
    in the colour of the same band. *)
Theorem getStressLabel_bands (v : Q) :
  ((getStressLabel v = "Low Stress" <-> v <= 33) /\
   (getStressLabel v = "Moderate Stress" <-> 33 < v <= 66) /\
   (getStressLabel v = "High Stress" <-> 66 < v)) /\
  ((getStressColor v = "#10B981" <-> getStressLabel v = "Low Stress") /\
   (getStressColor v = "#FBBF24" <-> getStressLabel v = "Moderate Stress") /\
   (getStressColor v = "#F43F5E" <-> getStressLabel v = "High Stress")).
Proof.
  unfold getStressLabel, getStressColor.
  destruct (Qle_bool v 33) eqn:E1;
    [apply Qle_bool_iff in E1 | apply Qle_bool_false in E1];
    (destruct (Qle_bool v 66) eqn:E2;
       [apply Qle_bool_iff in E2 | apply Qle_bool_false in E2]);
    split_all; intros Hx; try discriminate Hx; try reflexivity;
    try lra; try (destruct Hx; lra); split; lra.
Qed.

End StressFacts.

(** ** The heart-rate monitor *)

Module HeartRateFacts.
Import HeartRateMonitor.

Lemma clamp_bounds (x : Q) : 55 <= Math_max 55 (Math_min 100 x) <= 100.
Proof.
  unfold Math_max, Math_min.
  destruct (lt x 100) eqn:E1; [apply lt_true in E1 | apply lt_false in E1];
    cmp_cases; split; lra.
Qed.

Lemma clamp_near (h x : Q) :
  55 <= h <= 100 -> h - 2 <= x <= h + 2 ->
  h - 2 <= Math_max 55 (Math_min 100 x) <= h + 2.
Proof.
  intros Hh Hx. unfold Math_max, Math_min.
  destruct (lt x 100) eqn:E1; [apply lt_true in E1 | apply lt_false in E1];
    cmp_cases; split; lra.
Qed.

Lemma Math_round_near (x : Q) : x - 0.5 <= Math_round x <= x + 0.5.
Proof.
  unfold Math_round.
  pose proof (Qfloor_le (x + 0.5)) as Hle.
  pose proof (Qlt_floor (x + 0.5)) as Hlt.
  rewrite inject_Z_plus in Hlt. change (inject_Z 1) with 1 in Hlt.
  split; lra.
Qed.

Lemma Math_round_bounds (x : Q) : 55 <= x <= 100 -> 55 <= Math_round x <= 100.
Proof.
  intros [Hlo Hhi]. unfold Math_round. split.
  - change 55 with (inject_Z 55). rewrite <- Zle_Qle.
    rewrite <- (Qfloor_Z 55). apply Qfloor_resp_le.
    change (inject_Z 55) with 55. lra.
  - change 100 with (inject_Z 100). rewrite <- Zle_Qle.
    change 100%Z with (Qfloor 100.5). apply Qfloor_resp_le. lra.
Qed.

(** Whatever the heart rate and the random number, a tick of the simulation
    displays a rate between 55 and 100, so that the beat interval of the
    drawing, 3600 / rate pixels, is between 36 and 66; and for a heart rate
    within the 55..100 of the slider and a random number in [0,1), the
    displayed rate is within 2.5 of the heart rate. *)
Theorem simulatedRate_bounds (heartRate random : Q) :
  (55 <= simulatedRate heartRate random <= 100 /\
   36 <= beatInterval (simulatedRate heartRate random) <= 66) /\
  (55 <= heartRate <= 100 -> 0 <= random < 1 ->
   Qabs (simulatedRate heartRate random - heartRate) <= 2.5).
Proof.
  split.
  - assert (Hb : 55 <= simulatedRate heartRate random <= 100).
    { unfold simulatedRate. apply Math_round_bounds. apply clamp_bounds. }
    split; [exact Hb |].
    revert Hb. generalize (simulatedRate heartRate random). intros r [Hlo Hhi].
    assert (Hr : beatInterval r == 3600 / r).
    { unfold beatInterval. field. intros H0. rewrite H0 in Hlo. lra. }
    rewrite Hr. split.
    + apply Qle_shift_div_l; lra.
    + apply Qle_shift_div_r; lra.
  - intros Hh Hr. unfold simulatedRate.
    set (x := heartRate + (random - 0.5) * 4).
    assert (Hx : heartRate - 2 <= x <= heartRate + 2) by (unfold x; split; lra).
    pose proof (clamp_near heartRate x Hh Hx) as Hn.
    pose proof (Math_round_near (Math_max 55 (Math_min 100 x))) as Hround.
    apply Qabs_Qle_condition. split; lra.
Qed.

Lemma simulatedRate_bounds_witness :
  Qabs (simulatedRate 72 0.9 - 72) <= 2.5.
Proof.
  apply (proj2 (simulatedRate_bounds 72 0.9)); split; lra.
Defined.

(** The category of a rate: Relaxed below 60, Normal from 60 to below 80,
    Slightly Elevated from 80 to below 90, Elevated from 90; the colour is
    green exactly below 80, amber from 80 to below 90, rose from 90. *)
Theorem getRateCategory_bands (rate : Q) :
  ((fst (getRateCategory rate) = "Relaxed" <-> rate < 60) /\
   (fst (getRateCategory rate) = "Normal" <-> 60 <= rate < 80) /\
   (fst (getRateCategory rate) = "Slightly Elevated" <-> 80 <= rate < 90) /\
   (fst (getRateCategory rate) = "Elevated" <-> 90 <= rate)) /\
  ((snd (getRateCategory rate) = "#10B981" <-> rate < 80) /\
   (snd (getRateCategory rate) = "#FBBF24" <-> 80 <= rate < 90) /\
   (snd (getRateCategory rate) = "#F43F5E" <-> 90 <= rate)).
Proof.
  unfold getRateCategory.
  cmp_cases; cbn; split_all; intros Hx; try discriminate Hx; try reflexivity;
    try lra; try (destruct Hx; lra); split; lra.
Qed.

End HeartRateFacts.

(** ** The user-profile store *)

Module StoreFacts.
Import UserProfileStore.

(** C9: [setCalibration d] keeps every calibration field that [d] does not
    name, always writes the current time into [calibration.timestamp], and
    leaves [neuroBrief], [formula], [currentStep], [isGenerating] and
    [error] as they were; [setNeuroBrief] does the same on its slice. *)
Theorem setters_frame (now : string) (s : State) :
  (forall d : PartialCalibrationData.t,
     let s' := setCalibration now d s in
     (PartialCalibrationData.ph d = None ->
      CalibrationData.ph (calibration s') = CalibrationData.ph (calibration s)) /\
     (PartialCalibrationData.skinType d = None ->
      CalibrationData.skinType (calibration s')
      = CalibrationData.skinType (calibration s)) /\
     (PartialCalibrationData.temperature d = None ->
      CalibrationData.temperature (calibration s')
      = CalibrationData.temperature (calibration s)) /\
     CalibrationData.timestamp (calibration s') = Some now /\
     neuroBrief s' = neuroBrief s /\ formula s' = formula s /\
     currentStep s' = currentStep s /\ isGenerating s' = isGenerating s /\
     error s' = error s) /\
  (forall d : PartialNeuroBriefData.t,
     let s' := setNeuroBrief now d s in
     (PartialNeuroBriefData.prompt d = None ->
      NeuroBriefData.prompt (neuroBrief s') = NeuroBriefData.prompt (neuroBrief s)) /\
     (PartialNeuroBriefData.valence d = None ->
      NeuroBriefData.valence (neuroBrief s')
      = NeuroBriefData.valence (neuroBrief s)) /\
     (PartialNeuroBriefData.arousal d = None ->
      NeuroBriefData.arousal (neuroBrief s')
      = NeuroBriefData.arousal (neuroBrief s)) /\
     NeuroBriefData.timestamp (neuroBrief s') = Some now /\
     calibration s' = calibration s /\ formula s' = formula s /\
     currentStep s' = currentStep s /\ isGenerating s' = isGenerating s /\
     error s' = error s).
Proof.
  split; intros d; cbn; repeat split; intros ->; reflexivity.
Qed.

(** C10: after [resetAll] the store is in its initial state, with the
    values the source gives it, and there neither completeness check
    holds. *)
Theorem resetAll_initial (s : State) :
  resetAll s =
    {| calibration :=
         {| CalibrationData.ph := 5.5; CalibrationData.skinType := None;
            CalibrationData.temperature := 36.5;
            CalibrationData.timestamp := None |};
       neuroBrief :=
         {| NeuroBriefData.prompt := utf16 EmptyString;
            NeuroBriefData.valence := 0; NeuroBriefData.arousal := 0;
            NeuroBriefData.timestamp := None |};
       formula := None; currentStep := 0; isGenerating := false;
       error := None |} /\
  resetAll s = initialState /\
  isCalibrationComplete (resetAll s) = false /\
  isNeuroBriefComplete (resetAll s) = false.
Proof. repeat split. Qed.

Lemma setters_frame_witness :
  CalibrationData.skinType
    (calibration
       (setCalibration "2025-01-01T00:00:00.000Z"
          {| PartialCalibrationData.ph := Some 6.2;
             PartialCalibrationData.skinType := None;
             PartialCalibrationData.temperature := None;
             PartialCalibrationData.timestamp := None |}
          (setCalibration "2024-12-31T23:59:00.000Z"
             {| PartialCalibrationData.ph := None;
                PartialCalibrationData.skinType := Some (Some oily);
                PartialCalibrationData.temperature := None;
                PartialCalibrationData.timestamp := None |}
             initialState)))
  = Some oily.
Proof.
  rewrite (proj1 (proj2 (proj1 (setters_frame _ _) _))); reflexivity.
Defined.

(** *** The other actions *)

(** Two partial updates in a row are one update with their overlay: the
    fields the second names win, the others are as the first left them, and
    the time stamp is that of the second. *)
Theorem setters_compose (now1 now2 : string) (s : State) :
  (forall d1 d2 : PartialCalibrationData.t,
     setCalibration now2 d2 (setCalibration now1 d1 s)
     = setCalibration now2 (overlayCalibration d1 d2) s) /\
  (forall d1 d2 : PartialNeuroBriefData.t,
     setNeuroBrief now2 d2 (setNeuroBrief now1 d1 s)
     = setNeuroBrief now2 (overlayNeuroBrief d1 d2) s).
Proof.
  split; intros [p1 q1 r1 t1] [p2 q2 r2 t2];
    destruct p2, q2, r2, t2; reflexivity.
Qed.

(** Actions on different slices commute: for each of the fifteen pairs of
    [setCalibration], [setNeuroBrief], [setFormula], [setCurrentStep],
    [setIsGenerating] and [setError], the order in which the two are run
    does not matter. *)
Theorem actions_commute (now now' : string) (d : PartialCalibrationData.t)
    (d' : PartialNeuroBriefData.t) (f : FormulaData) (step : Q) (b : bool)
    (e : option string) (s : State) :
  setCalibration now d (setNeuroBrief now' d' s)
  = setNeuroBrief now' d' (setCalibration now d s) /\
  setCalibration now d (setFormula f s) = setFormula f (setCalibration now d s) /\
  setCalibration now d (setCurrentStep step s)
  = setCurrentStep step (setCalibration now d s) /\
  setNeuroBrief now' d' (setFormula f s) = setFormula f (setNeuroBrief now' d' s) /\
  setNeuroBrief now' d' (setCurrentStep step s)
  = setCurrentStep step (setNeuroBrief now' d' s) /\
  setFormula f (setCurrentStep step s) = setCurrentStep step (setFormula f s) /\
  setIsGenerating b (setError e s) = setError e (setIsGenerating b s) /\
  setFormula f (setIsGenerating b s) = setIsGenerating b (setFormula f s) /\
  setFormula f (setError e s) = setError e (setFormula f s) /\
  setCalibration now d (setIsGenerating b s)
  = setIsGenerating b (setCalibration now d s) /\
  setCalibration now d (setError e s) = setError e (setCalibration now d s) /\
  setNeuroBrief now' d' (setIsGenerating b s)
  = setIsGenerating b (setNeuroBrief now' d' s) /\
  setNeuroBrief now' d' (setError e s) = setError e (setNeuroBrief now' d' s) /\
  setCurrentStep step (setIsGenerating b s)
  = setIsGenerating b (setCurrentStep step s) /\
  setCurrentStep step (setError e s) = setError e (setCurrentStep step s).
Proof. repeat split. Qed.

(** [resetAll] is the six single resets together, in any state; it undoes
    whatever any action did before it. *)
Theorem resetAll_composes (now : string) (d : PartialCalibrationData.t)
    (d' : PartialNeuroBriefData.t) (f : FormulaData) (s : State) :
  resetAll s
  = setError None
      (setIsGenerating false
         (setCurrentStep 0 (resetFormula (resetNeuroBrief (resetCalibration s))))) /\
  resetAll (setCalibration now d s) = resetAll s /\
  resetAll (setNeuroBrief now d' s) = resetAll s /\
  resetAll (setFormula f s) = resetAll s /\
  calibration (resetCalibration (setCalibration now d s)) = initialCalibration /\
  neuroBrief (resetNeuroBrief (setNeuroBrief now d' s)) = initialNeuroBrief /\
  formula (resetFormula (setFormula f s)) = None.
Proof. repeat split. Qed.

(** After any [setCalibration] the time stamp is set, so the calibration is
    complete exactly when its skin type is set; after any [setNeuroBrief]
    the neuro-brief is complete exactly when its prompt has at least 10
    code units; after a reset neither is complete. *)
Theorem completeness_after_set (now : string) (s : State) :
  (forall d,
     isCalibrationComplete (setCalibration now d s) = true
     <-> CalibrationData.skinType (calibration (setCalibration now d s)) <> None) /\
  (forall d,
     isNeuroBriefComplete (setNeuroBrief now d s) = true
     <-> (10 <= length (NeuroBriefData.prompt
                          (neuroBrief (setNeuroBrief now d s))))%nat) /\
  isCalibrationComplete (resetCalibration s) = false /\
  isNeuroBriefComplete (resetNeuroBrief s) = false.
Proof.
  split; [| split; [| split; reflexivity]].
  - intros d. unfold isCalibrationComplete. cbn.
    rewrite andb_true_r, bool_decide_eq_true. reflexivity.
  - intros d. unfold isNeuroBriefComplete. cbn -[Nat.leb].
    rewrite andb_true_r. apply Nat.leb_le.
Qed.

(** The persisted part of the state does not depend on the loading flag or
    on the error: [setIsGenerating] and [setError] leave it as it is, and
    two states persist alike exactly when their calibration, neuro-brief,
    formula and current step are the same. *)
Theorem partialize_ignores_transient (s s' : State) (b : bool) (e : option string) :
  partialize (setIsGenerating b s) = partialize s /\
  partialize (setError e s) = partialize s /\
  (partialize s = partialize s'
   <-> calibration s = calibration s' /\ neuroBrief s = neuroBrief s' /\
       formula s = formula s' /\ currentStep s = currentStep s').
Proof.
  split; [reflexivity |]. split; [reflexivity |].
  unfold partialize. split.
  - intros H. injection H as H1 H2 H3 H4. auto.
  - intros (-> & -> & -> & ->). reflexivity.
Qed.

End StoreFacts.

(** ** The API client *)

Module ApiFacts.
Import ApiClient.

Lemma dropSlashes_spec (s : JSString) :
  exists n, s = repeat slash n ++ dropSlashes s /\
            head (dropSlashes s) <> Some slash.
Proof.
  induction s as [| c s (n & Hs & Hhead)]; cbn.
  - exists 0%nat. split; [reflexivity | discriminate].
  - destruct (N.eqb_spec c slash) as [-> | Hne].
    + exists (S n). split; [cbn; f_equal; exact Hs | exact Hhead].
    + exists 0%nat. split; [reflexivity |]. cbn. congruence.
Qed.

Lemma last_rev_head {A : Type} (l : list A) : last (rev l) = head l.
Proof. destruct l as [| x l]; [reflexivity |]. cbn. apply last_snoc. Qed.

Lemma rev_repeat_same {A : Type} (x : A) (n : nat) : rev (repeat x n) = repeat x n.
Proof.
  induction n as [| n IH]; [reflexivity |]. cbn. rewrite IH.
  clear IH. induction n as [| n IH]; [reflexivity |]. cbn. f_equal. exact IH.
Qed.

Lemma stripTrailingSlashes_spec (s : JSString) :
  last (stripTrailingSlashes s) <> Some slash /\
  exists n, s = stripTrailingSlashes s ++ repeat slash n.
Proof.
  unfold stripTrailingSlashes.
  destruct (dropSlashes_spec (rev s)) as (n & Hs & Hhead).
  split; [rewrite last_rev_head; exact Hhead |].
  exists n. rewrite <- (rev_involutive s) at 1. rewrite Hs at 1.
  rewrite rev_app_distr, rev_repeat_same. reflexivity.
Qed.

(** The base URL never ends with a slash: it is the configured URL without
    its trailing slashes, or, when none is configured (unset or empty),
    http://localhost:8000; so the URL of a request is the configured URL,
    however many slashes end it, followed by exactly the endpoint. *)
Theorem API_BASE_URL_no_trailing_slash (env : option JSString) :
  last (API_BASE_URL env) <> Some slash /\
  (exists n,
     orElse env (utf16 "http://localhost:8000")
     = API_BASE_URL env ++ repeat slash n) /\
  (forall configured, env = Some configured -> configured <> [] ->
     exists n, configured = API_BASE_URL env ++ repeat slash n) /\
  (env = None \/ env = Some [] ->
   API_BASE_URL env = utf16 "http://localhost:8000").
Proof.
  unfold API_BASE_URL.
  destruct (stripTrailingSlashes_spec (orElse env (utf16 "http://localhost:8000")))
    as [Hlast Hrun].
  split; [exact Hlast |]. split; [exact Hrun |]. split.
  - intros configured -> Hne. destruct configured as [| c r]; [congruence |].
    exact Hrun.
  - intros [-> | ->]; reflexivity.
Qed.

Lemma API_BASE_URL_no_trailing_slash_witness :
  exists n,
    utf16 "https://api.sensora.app///"
    = API_BASE_URL (Some (utf16 "https://api.sensora.app///")) ++ repeat slash n.
Proof.
  apply (proj1 (proj2 (proj2 (API_BASE_URL_no_trailing_slash
                                (Some (utf16 "https://api.sensora.app///")))))
           (utf16 "https://api.sensora.app///") eq_refl).
  discriminate.
Defined.

Lemma indexKey_not_content_type (i : nat) : indexKey i <> "Content-Type".
Proof.
  unfold indexKey, NilZero.string_of_uint.
  destruct (Nat.to_uint i); cbn; discriminate.
Qed.

Lemma to_uint_nonnil (n : nat) : Nat.to_uint n <> Decimal.Nil.
Proof.
  rewrite <- (Unsigned.of_to n) at 1. rewrite Unsigned.to_of.
  apply unorm_nonnil.
Qed.

Lemma indexKey_inj (i j : nat) : indexKey i = indexKey j -> i = j.
Proof.
  unfold indexKey. intros H. apply Unsigned.to_uint_inj.
  apply (f_equal NilZero.uint_of_string) in H.
  rewrite !NilZero.usu in H by apply to_uint_nonnil. congruence.
Qed.

Lemma spreadArray_other (k : string) (pairs : list (list string)) (i : nat) :
  (forall j, k <> indexKey j) -> spreadArray i pairs !! k = None.
Proof.
  intros Hk. revert i. induction pairs as [| element rest IH]; intros i; cbn.
  - apply lookup_empty.
  - rewrite lookup_insert_ne by (intros H; exact (Hk i (eq_sym H))).
    apply IH.
Qed.

Lemma spreadArray_lookup (pairs : list (list string)) (i j : nat) :
  spreadArray i pairs !! indexKey (i + j) = Items <$> pairs !! j.
Proof.
  revert i j. induction pairs as [| element rest IH]; intros i j; cbn.
  - rewrite lookup_empty. reflexivity.
  - destruct j as [| j].
    + rewrite Nat.add_0_r, lookup_insert_eq. reflexivity.
    + rewrite lookup_insert_ne
        by (intros H; apply indexKey_inj in H; lia).
      replace (i + S j)%nat with (S i + j)%nat by lia. apply IH.
Qed.

(** The headers of the object handed to [fetch], for each form of the
    caller's headers.  A plain object: every header of the caller is there
    as given, also its Content-Type; without one the object carries
    Content-Type application/json; no other header is added.  Absent, or a
    [Headers] instance: nothing of the caller is copied, the object carries
    Content-Type application/json and nothing else.  An array of pairs: the
    pairs are there under their indices, not under their names, beside
    Content-Type application/json.  Method and body are those of the
    caller. *)
Theorem request_headers (base endpoint : JSString) (options : RequestInit) :
  let sent := sent_headers (init (request base endpoint options)) in
  (forall record, headers options = Some (HeadersRecord record) ->
     (forall k v, record !! k = Some v -> sent !! k = Some (Text v)) /\
     (record !! "Content-Type" = None ->
      sent !! "Content-Type" = Some (Text "application/json")) /\
     (forall k, k <> "Content-Type" -> sent !! k = Text <$> record !! k)) /\
  (headers options = None \/
   (exists entries, headers options = Some (HeadersInstance entries)) ->
   sent = {[ "Content-Type" := Text "application/json" ]}) /\
  (forall pairs, headers options = Some (HeadersPairs pairs) ->
     (forall i, sent !! indexKey i = Items <$> pairs !! i) /\
     sent !! "Content-Type" = Some (Text "application/json") /\
     (forall k, (forall i, k <> indexKey i) -> k <> "Content-Type" ->
        sent !! k = None)) /\
  sent_method (init (request base endpoint options)) = method options /\
  sent_body (init (request base endpoint options)) = body options.
Proof.
  cbn. unfold defaultHeaders. split_all; try reflexivity.
  - intros record ->. cbn. split_all.
    + intros k v Hk. apply lookup_union_Some_l. rewrite lookup_fmap, Hk.
      reflexivity.
    + intros Hnone. rewrite lookup_union_r by (rewrite lookup_fmap, Hnone; reflexivity).
      apply lookup_singleton_eq.
    + intros k Hne. rewrite lookup_union_l by (apply lookup_singleton_ne; congruence).
      apply lookup_fmap.
  - intros [-> | [entries ->]]; cbn; apply (left_id ∅ (∪)).
  - intros pairs ->. cbn. split_all.
    + intros i.
      rewrite lookup_union_l
        by (apply lookup_singleton_ne; intros H;
            exact (indexKey_not_content_type i (eq_sym H))).
      exact (spreadArray_lookup pairs 0 i).
    + rewrite lookup_union_r
        by (apply spreadArray_other; intros j H;
            exact (indexKey_not_content_type j (eq_sym H))).
      apply lookup_singleton_eq.
    + intros k Hk Hne.
      rewrite lookup_union_l by (apply lookup_singleton_ne; congruence).
      apply spreadArray_other. exact Hk.
Qed.

Lemma request_headers_witness :
  sent_headers
    (init (request (utf16 "http://localhost:8000") (utf16 "/health")
             {| method := None; body := None;
                headers :=
                  Some (HeadersRecord {[ "Authorization" := "Bearer t" ]}) |}))
    !! "Content-Type" = Some (Text "application/json") /\
  sent_headers
    (init (request (utf16 "http://localhost:8000") (utf16 "/health")
             {| method := None; body := None;
                headers :=
                  Some (HeadersInstance [("Authorization", "Bearer t")]) |}))
    !! "Authorization" = None.
Proof.
  split.
  - apply (proj1 (proj2 (proj1 (request_headers _ _
               {| method := None; body := None;
                  headers :=
                    Some (HeadersRecord {[ "Authorization" := "Bearer t" ]}) |})
               {[ "Authorization" := "Bearer t" ]} eq_refl))).
    reflexivity.
  - rewrite (proj1 (proj2 (request_headers _ _
               {| method := None; body := None;
                  headers :=
                    Some (HeadersInstance [("Authorization", "Bearer t")]) |})));
      [reflexivity | right; eexists; reflexivity].
Defined.

(** How [apiFetch] settles: it resolves only with the parsed body of a
    response that is ok; a response that is not ok always rejects with an
    ApiError carrying its status and status text and a message that is
    never empty, the body of the response or, for an empty body, the words
    An error occurred. *)
Theorem apiFetch_settles {T : Type} (fetch : Request -> option (Response T))
    (base endpoint : JSString) (options : RequestInit) :
  (forall value,
     apiFetch fetch base endpoint options = Fulfilled value ->
     exists response,
       fetch (request base endpoint options) = Some response /\
       ok response = true /\ json response = Some value) /\
  (forall response,
     fetch (request base endpoint options) = Some response ->
     ok response = false ->
     exists e,
       apiFetch fetch base endpoint options = RejectedApiError e /\
       error_status e = status response /\
       error_statusText e = statusText response /\
       name e = "ApiError" /\
       message e <> [] /\
       (text response <> [] -> message e = text response) /\
       (text response = [] -> message e = utf16 "An error occurred")).
Proof.
  unfold apiFetch. split.
  - intros value H.
    destruct (fetch (request base endpoint options)) as [response |];
      [| discriminate H].
    exists response. destruct (ok response); cbn in H; [| discriminate H].
    destruct (json response) as [v |]; [| discriminate H].
    injection H as ->. auto.
  - intros response -> Hok. rewrite Hok. cbn [negb].
    eexists. split; [reflexivity |]. cbn.
    destruct (text response) as [| c r]; cbn; repeat split;
      intros; congruence.
Qed.

Lemma apiFetch_settles_witness :
  exists e,
    apiFetch
      (fun _ =>
         Some {| ok := false; status := 503;
                 statusText := "Service Unavailable"; text := [];
                 json := @None unit |})
      (utf16 "http://localhost:8000") (utf16 "/health")
      {| method := None; body := None; headers := None |}
    = RejectedApiError e /\
    message e = utf16 "An error occurred".
Proof.
  destruct (proj2 (apiFetch_settles
                     (fun _ =>
                        Some {| ok := false; status := 503;
                                statusText := "Service Unavailable"; text := [];
                                json := @None unit |})
                     (utf16 "http://localhost:8000") (utf16 "/health")
                     {| method := None; body := None; headers := None |})
              _ eq_refl eq_refl) as (e & He & _ & _ & _ & _ & _ & Hmsg).
  exists e. split; [exact He | exact (Hmsg eq_refl)].
Defined.

Lemma split_without (sep : N) (s : JSString) :
  ~ In sep s -> split sep s = [s].
Proof.
  induction s as [| c s IH]; [reflexivity |]. intros Hnot. cbn.
  destruct (N.eqb_spec c sep) as [-> | Hne]; [exfalso; apply Hnot; left; reflexivity |].
  rewrite IH; [reflexivity |]. intros Hin. apply Hnot. right. exact Hin.
Qed.

Lemma split_nonempty (sep : N) (s : JSString) : split sep s <> [].
Proof.
  induction s as [| c s IH]; cbn; [discriminate |].
  destruct (c =? sep)%N; [discriminate |].
  destruct (split sep s); [congruence | discriminate].
Qed.

Lemma split_at_first (sep : N) (before after : JSString) :
  ~ In sep before ->
  split sep (before ++ sep :: after) = before :: split sep after.
Proof.
  induction before as [| c before IH]; intros Hnot; cbn.
  - rewrite N.eqb_refl. reflexivity.
  - destruct (N.eqb_spec c sep) as [-> | Hne];
      [exfalso; apply Hnot; left; reflexivity |].
    rewrite IH; [reflexivity |]. intros Hin. apply Hnot. right. exact Hin.
Qed.

(** [fileToBase64] resolves to the payload of a data URL: for a result made
    of a prefix without comma, a comma and a payload without comma (as
    base64 text is), it resolves to exactly the payload; for a result
    without any comma it resolves to undefined; and it rejects when the
    reader fails. *)
Theorem fileToBase64_payload (prefix payload : JSString) :
  (~ In comma prefix -> ~ In comma payload ->
   fileToBase64 (Some (prefix ++ comma :: payload)) = Fulfilled (Some payload)) /\
  (~ In comma prefix -> fileToBase64 (Some prefix) = Fulfilled None) /\
  fileToBase64 None = RejectedOther.
Proof.
  unfold fileToBase64. repeat split.
  - intros Hp Hq. rewrite (split_at_first _ _ _ Hp), (split_without _ _ Hq).
    reflexivity.
  - intros Hp. rewrite (split_without _ _ Hp). reflexivity.
Qed.

Lemma fileToBase64_payload_witness :
  fileToBase64 (Some (utf16 "data:image/png;base64,iVBORw0KGgo="))
  = Fulfilled (Some (utf16 "iVBORw0KGgo=")).
Proof.
  apply (proj1 (fileToBase64_payload (utf16 "data:image/png;base64")
                  (utf16 "iVBORw0KGgo="))).
  - vm_compute. intuition discriminate.
  - vm_compute. intuition discriminate.
Defined.

Lemma total_from (ingredients : list Ingredient) (acc : Q) :
  Forall (fun ing => 0 <= concentration ing) ingredients ->
  acc <= fold_left (fun sum ing => sum + concentration ing) ingredients acc /\
  Forall (fun ing =>
            acc + concentration ing
            <= fold_left (fun sum ing => sum + concentration ing) ingredients acc)
    ingredients.
Proof.
  intros Hall. revert acc.
  induction Hall as [| ing rest Hing _ IH]; intros acc; cbn.
  - split; [lra | constructor].
  - destruct (IH (acc + concentration ing)) as [Hacc Hrest]. split; [lra |].
    constructor; [exact Hacc |].
    apply (Forall_impl _ _ _ Hrest). intros other Hother. cbn in Hother. lra.
Qed.

(** With concentrations that are not negative, the total is not negative
    and no ingredient exceeds it; the total of no ingredient is 0. *)
Theorem total_bounds_each (ingredients : list Ingredient) :
  (Forall (fun ing => 0 <= concentration ing) ingredients ->
   0 <= calculateTotalConcentration ingredients /\
   Forall (fun ing => concentration ing <= calculateTotalConcentration ingredients)
     ingredients) /\
  calculateTotalConcentration [] = 0.
Proof.
  split; [| reflexivity]. intros Hall. unfold calculateTotalConcentration.
  destruct (total_from ingredients 0 Hall) as [Hacc Heach].
  split; [exact Hacc |].
  apply (Forall_impl _ _ _ Heach). intros ing Hing. cbn in Hing. lra.
Qed.

Lemma total_bounds_each_witness :
  0 <= calculateTotalConcentration
         [ {| ingredient_name := "bergamot"; concentration := 12.5; logp := 3.1;
              sustainable := true; noteType := top |};
           {| ingredient_name := "musk"; concentration := 30; logp := 5.9;
              sustainable := false; noteType := base |} ].
Proof.
  apply (proj1 (total_bounds_each _)).
  repeat constructor; cbn; lra.
Defined.

End ApiFacts.

(** ** The formulation pipeline *)

Module PipelineFacts.
Import Pipeline.

Section Validator.

Variable categoryOf : IngredientRecord -> string.
Variable ceiling : string -> Q.

Lemma adjustedFrom_weaken (found found' : list Violation)
    (before after : IngredientRecord * Q) :
  (forall v, In v found -> In v found') ->
  adjustedFrom categoryOf ceiling found before after ->
  adjustedFrom categoryOf ceiling found' before after.
Proof.
  intros Hsub (Hing & Hle & Hred). repeat split; try assumption.
  - apply Hred; assumption.
  - apply Hsub. apply Hred. assumption.
Qed.

Lemma validateEntry_adjusted (e : IngredientRecord * Q) :
  adjustedFrom categoryOf ceiling (snd (validateEntry categoryOf ceiling e))
    e (fst (validateEntry categoryOf ceiling e)).
Proof.
  unfold validateEntry, adjustedFrom.
  destruct (gt (snd e) (ceiling (categoryOf (fst e)))) eqn:E; cbn.
  - apply gt_true in E. repeat split; try lra. left. reflexivity.
  - repeat split; try lra.
Qed.

Lemma validateEntries_adjusted (draft : DraftFormula) :
  Forall2 (adjustedFrom categoryOf ceiling
             (snd (validateEntries categoryOf ceiling draft)))
    draft (fst (validateEntries categoryOf ceiling draft)).
Proof.
  induction draft as [| e rest IH]; cbn.
  - constructor.
  - pose proof (validateEntry_adjusted e) as He.
    destruct (validateEntry categoryOf ceiling e) as [e' found].
    destruct (validateEntries categoryOf ceiling rest) as [rest' found'].
    cbn in *. constructor.
    + apply (adjustedFrom_weaken found); [| exact He].
      intros v Hv. apply in_or_app. left. exact Hv.
    + apply (Forall2_impl _ _ _ _ IH). intros b a Hba.
      apply (adjustedFrom_weaken found'); [| exact Hba].
      intros v Hv. apply in_or_app. right. exact Hv.
Qed.

(** C6: for every draft formula, the Compliance Validator keeps every
    ingredient, never increases a concentration, and whenever it reduces
    one, reduces it to the ceiling of the category and records a violation
    entry carrying the pre-adjustment value. *)
Theorem validate_only_decreases (draft : DraftFormula) :
  Forall2 (adjustedFrom categoryOf ceiling
             (violations (snd (validate categoryOf ceiling draft))))
    draft (fst (validate categoryOf ceiling draft)).
Proof.
  pose proof (validateEntries_adjusted draft) as H.
  unfold validate.
  destruct (validateEntries categoryOf ceiling draft) as [adjusted found].
  exact H.
Qed.

Lemma validateEntries_within (draft : DraftFormula) :
  Forall (fun e => snd e <= ceiling (categoryOf (fst e)))
    (fst (validateEntries categoryOf ceiling draft)).
Proof.
  induction draft as [| e rest IH]; cbn.
  - constructor.
  - unfold validateEntry.
    destruct (gt (snd e) (ceiling (categoryOf (fst e)))) eqn:E;
      destruct (validateEntries categoryOf ceiling rest) as [rest' found'];
      cbn in *; constructor; try exact IH.
    + cbn. lra.
    + apply gt_false in E. exact E.
Qed.

(** The scenario of section 8: a base note at 50 under a ceiling of 40 is
    reduced to 40, with one violation on record. *)
Example validate_scenario :
  validate (fun _ => "fine fragrance") (fun _ => 40) [(sampleMusk, 50)]
  = ([(sampleMusk, 40)],
     {| valid := false;
        violations :=
          [ {| ingredient := "musk"; limitPct := 40; observedPct := 50;
               category := "fine fragrance" |} ] |}).
Proof. reflexivity. Qed.

Section Orchestrator.

Variable WeightedAccords : Type.
Variable emotionMap : Q -> Q -> WeightedAccords.
Variable retrieve : BiochemicalProfile -> list CorrectionDirective.
Variable assemble : WeightedAccords -> list CorrectionDirective -> DraftFormula.
Variable longevityOf projectionOf uniquenessOf sustainabilityOf : DraftFormula -> Q.

(** C7: for every profile and emotional target, the formula and the
    compliance result that [generateFormula] returns are those the
    Compliance Validator produced for the assembled draft, whether or not
    the result is valid: the two are the output of [validate], every
    concentration of the formula is within its ceiling, and, the formula
    having at least one ingredient, the complianceScore is
    1 - (violation count / ingredient count). *)
Theorem generateFormula_validated (profile : BiochemicalProfile)
    (emotionalTarget : EmotionalTarget) :
  let out :=
    generateFormula categoryOf ceiling WeightedAccords emotionMap retrieve
      assemble longevityOf projectionOf uniquenessOf sustainabilityOf
      profile emotionalTarget in
  let draft :=
    assemble
      (emotionMap (clamp (-1) 1 (valence emotionalTarget))
                  (clamp (-1) 1 (arousal emotionalTarget)))
      (retrieve
         {| ph := clamp 3.0 9.0 (ph profile); skinType := skinType profile;
            temperatureC := clamp 35.0 38.0 (temperatureC profile) |}) in
  validate categoryOf ceiling draft = (entries (fst out), snd out) /\
  Forall (fun e => snd e <= ceiling (categoryOf (fst e))) (entries (fst out)) /\
  (entries (fst out) <> [] ->
   complianceScore (metrics (fst out))
   = 1 - count (violations (snd out)) / count (entries (fst out))).
Proof.
  cbv zeta. unfold generateFormula.
  set (draft := assemble _ _).
  pose proof (validateEntries_within draft) as Hin.
  unfold validate in *.
  destruct (validateEntries categoryOf ceiling draft) as [adjusted found].
  cbn in *. repeat split. exact Hin.
Qed.

End Orchestrator.

End Validator.

(** The scenario of section 8 through the orchestrator: one ingredient, one
    violation, a compliance score of 0. *)
Lemma generateFormula_validated_witness :
  complianceScore
    (metrics
       (fst (generateFormula (fun _ => "fine fragrance") (fun _ => 40)
               unit (fun _ _ => tt) (fun _ => [])
               (fun _ _ => [(sampleMusk, 50)])
               (fun _ => 0) (fun _ => 0) (fun _ => 0) (fun _ => 0)
               {| ph := 5.5; skinType := "dry"; temperatureC := 36.5 |}
               {| valence := 0.3; arousal := 0.2; prompt := None |})))
  = 1 - 1 / 1.
Proof.
  apply (proj2 (proj2
    (generateFormula_validated (fun _ => "fine fragrance") (fun _ => 40)
       unit (fun _ _ => tt) (fun _ => [])
       (fun _ _ => [(sampleMusk, 50)])
       (fun _ => 0) (fun _ => 0) (fun _ => 0) (fun _ => 0)
       {| ph := 5.5; skinType := "dry"; temperatureC := 36.5 |}
       {| valence := 0.3; arousal := 0.2; prompt := None |}))).
  discriminate.
Defined.

End PipelineFacts.

(** ** From the calibration page to the neuro-brief page *)

Module WizardFacts.

(** The neuro-brief page reads the key the calibration page writes: mounted
    on the storage a calibration submission leaves, it does not send the
    user back, and the stored calibration is still there after anything the
    user does on it; mounted on a storage without a calibration, it pushes
    the calibration route. *)
Theorem calibration_opens_brief (w : CalibrationPage.World) (now : string)
    (history : list string) :
  CalibrationPage.canProceed (CalibrationPage.page w) = true ->
  let storage :=
    CalibrationPage.localStorage (CalibrationPage.handleSubmit now w) in
  NeuroBriefPage.route (NeuroBriefPage.mount storage history) = history /\
  (forall w', NeuroBriefPage.steps (NeuroBriefPage.mount storage history) w' ->
     NeuroBriefPage.localStorage w' !! "sensora_calibration"
     = Some (CalibrationItem
               (CalibrationPage.calibrationData now (CalibrationPage.page w)))) /\
  (forall other : gmap string StoredItem,
     other !! "sensora_calibration" = None ->
     NeuroBriefPage.route (NeuroBriefPage.mount other history)
     = history ++ ["/calibration"]).
Proof.
  intros Hcan storage.
  assert (Hst : storage !! "sensora_calibration"
                = Some (CalibrationItem
                          (CalibrationPage.calibrationData now
                             (CalibrationPage.page w)))).
  { unfold storage, CalibrationPage.handleSubmit. rewrite Hcan. cbn.
    apply lookup_insert_eq. }
  split; [| split].
  - unfold NeuroBriefPage.mount, NeuroBriefPage.checkCalibration. cbn.
    rewrite Hst. reflexivity.
  - intros w' Hsteps.
    rewrite (NeuroBriefFacts.steps_keep_calibration _ _ Hsteps).
    rewrite (proj1 (NeuroBriefFacts.mount_storage storage history)).
    exact Hst.
  - intros other Hnone.
    unfold NeuroBriefPage.mount, NeuroBriefPage.checkCalibration. cbn.
    rewrite Hnone. reflexivity.
Qed.

Lemma calibration_opens_brief_witness :
  NeuroBriefPage.route
    (NeuroBriefPage.mount
       (CalibrationPage.localStorage CalibrationPage.sampleSession)
       ["/calibration"; "/neuro-brief"])
  = ["/calibration"; "/neuro-brief"].
Proof.
  refine (proj1 (calibration_opens_brief
                   (CalibrationPage.onPage
                      (CalibrationPage.setSkinType (Some "dry"))
                      (CalibrationPage.onPage (CalibrationPage.setPh 6.2)
                         CalibrationPage.initialWorld))
                   "2025-01-01T00:00:00.000Z"
                   ["/calibration"; "/neuro-brief"] _)).
  reflexivity.
Defined.

(** A prompt the neuro-brief page lets the user submit is always complete
    for the store once set there; the converse fails: with a prompt of
    exactly 10 code units the store reports the neuro-brief complete while
    the page does not let the user proceed. *)
Theorem page_prompt_complete_in_store (p : NeuroBriefPage.State) (now : string)
    (s : UserProfileStore.State) :
  let s' :=
    UserProfileStore.setNeuroBrief now
      {| UserProfileStore.PartialNeuroBriefData.prompt :=
           Some (NeuroBriefPage.prompt p);
         UserProfileStore.PartialNeuroBriefData.valence :=
           Some (NeuroBriefPage.valence p);
         UserProfileStore.PartialNeuroBriefData.arousal :=
           Some (NeuroBriefPage.arousal p);
         UserProfileStore.PartialNeuroBriefData.timestamp := None |} s in
  (NeuroBriefPage.canProceed p = true ->
   UserProfileStore.isNeuroBriefComplete s' = true) /\
  (length (NeuroBriefPage.prompt p) = 10%nat ->
   UserProfileStore.isNeuroBriefComplete s' = true /\
   NeuroBriefPage.canProceed p = false).
Proof.
  cbv zeta. unfold UserProfileStore.isNeuroBriefComplete, NeuroBriefPage.canProceed.
  cbn -[Nat.leb Nat.ltb trim]. rewrite andb_true_r.
  pose proof (NeuroBriefFacts.trim_length (NeuroBriefPage.prompt p)) as Hle.
  split.
  - intros H. apply Nat.ltb_lt in H. apply Nat.leb_le. lia.
  - intros H. split; [apply Nat.leb_le; lia | apply Nat.ltb_ge; lia].
Qed.

Lemma page_prompt_complete_in_store_witness :
  UserProfileStore.isNeuroBriefComplete
    (UserProfileStore.setNeuroBrief "2025-01-01T00:00:00.000Z"
       {| UserProfileStore.PartialNeuroBriefData.prompt :=
            Some (utf16 "Cool ocean breeze mingling with sun-warmed driftwood");
          UserProfileStore.PartialNeuroBriefData.valence := Some 0.3;
          UserProfileStore.PartialNeuroBriefData.arousal := Some 0.2;
          UserProfileStore.PartialNeuroBriefData.timestamp := None |}
       UserProfileStore.initialState) = true.
Proof.
  apply (proj1 (page_prompt_complete_in_store
                  (NeuroBriefPage.onPromptChange
                     (utf16 "Cool ocean breeze mingling with sun-warmed driftwood")
                     NeuroBriefPage.initialState)
                  "2025-01-01T00:00:00.000Z" UserProfileStore.initialState)).
  reflexivity.
Defined.

End WizardFacts.
